(** * resourceful_bot: the Slack-to-Gumloop message relay

    A shallow embedding of [handle_message] from [resourceful_bot.py] and the
    properties of its per-event flow: filter, thinking reaction, one webhook
    POST, reply, reaction clean-up, and the three [except] branches.

    The handler talks to three outside parties (the Slack Web API, the
    Gumloop webhook, the logger).  Their answers are not computed by the
    program, so they are supplied by a [World]; the handler is a computation
    in a small trace-and-exception monad that records every outbound call
    together with the answer it got. *)

From Stdlib Require Import ZArith String Ascii DecimalString List.
From stdpp Require Import base gmap strings list.

Set Warnings "-register-all".
Local Open Scope Z_scope.

(* ------------------------------------------------------------------ *)
(** ** Python values

    The values that reach the handler come from decoded JSON (the Slack
    event, the webhook body).  Numbers with a fractional part are left out:
    no branch of the handler tells them apart from integers.  A [str] is
    kept as the bytes of its UTF-8 encoding, so the literals of the source,
    emoji included, are written as they stand. *)

Inductive pyval : Type :=
  | PNone
  | PBool (b : bool)
  | PInt (z : Z)
  | PStr (s : string)
  | PList (l : list pyval)
  | PDict (d : gmap string pyval).

(** [bool(v)]: the test of an [if]. *)
Definition truthy (v : pyval) : bool :=
  match v with
  | PNone => false
  | PBool b => b
  | PInt z => negb (z =? 0)
  | PStr s => negb (String.eqb s "")
  | PList l => match l with [] => false | _ => true end
  | PDict d => negb (bool_decide (d = ∅))
  end.

(** [hash(v)] is defined except on lists and dicts. *)
Definition hashable (v : pyval) : bool :=
  match v with
  | PList _ | PDict _ => false
  | _ => true
  end.

(** [type(v).__name__]. *)
Definition type_name (v : pyval) : string :=
  match v with
  | PNone => "NoneType"
  | PBool _ => "bool"
  | PInt _ => "int"
  | PStr _ => "str"
  | PList _ => "list"
  | PDict _ => "dict"
  end.

(** [str(n)] for an [int]. *)
Definition str_int (n : Z) : string := NilZero.string_of_int (Z.to_int n).

(** [repr(v)] for the hashable values that are not a [str], as a
    [KeyError] shows its key. *)
Definition repr_key (v : pyval) : string :=
  match v with
  | PBool true => "True"
  | PBool false => "False"
  | PInt z => str_int z
  | _ => "None"
  end.

(** A byte that continues a multi-byte UTF-8 sequence: [10xxxxxx]. *)
Definition utf8_continuation (a : ascii) : bool :=
  let n := nat_of_ascii a in (128 <=? n)%nat && (n <? 192)%nat.

(** [s[:n]] on a [str]: the first [n] code points, that is, the bytes up to
    the lead byte of code point number [n]. *)
Fixpoint str_take (n : nat) (s : string) : string :=
  match s with
  | EmptyString => EmptyString
  | String a s' =>
      if utf8_continuation a then String a (str_take n s')
      else match n with
           | O => EmptyString
           | S n' => String a (str_take n' s')
           end
  end.

(** [d.get(k)] and [d.get(k, default)] on a [dict] with [str] keys. *)
Definition dict_get (d : gmap string pyval) (k : string) : pyval :=
  default PNone (d !! k).

Definition dict_get_default (d : gmap string pyval) (k : string) (dflt : pyval) : pyval :=
  default dflt (d !! k).

(* ------------------------------------------------------------------ *)
(** ** Exceptions

    The handler tells two classes apart: [requests.exceptions.Timeout] (with
    its subclasses) and every other [Exception].  Asynchronous interrupts
    ([KeyboardInterrupt], [SystemExit]) are not failures of a call and are
    outside the model. *)

Inductive exc : Type :=
  | RequestsTimeout (msg : string)
  | OtherException (cls : string) (msg : string).

(** [str(e)]. *)
Definition str_exc (e : exc) : string :=
  match e with
  | RequestsTimeout msg => msg
  | OtherException _ msg => msg
  end.

Definition is_timeout (e : exc) : bool :=
  match e with
  | RequestsTimeout _ => true
  | OtherException _ _ => false
  end.

Inductive result (A : Type) : Type :=
  | Returned (a : A)
  | Raised (e : exc).
Arguments Returned {A} a.
Arguments Raised {A} e.

(* ------------------------------------------------------------------ *)
(** ** Configuration *)

(** [CHANNELS]: channel id to agent label. *)
Definition CHANNELS : gmap string string :=
  list_to_map
    [ ("C09NEFLB30C", "vision-agent");
      ("C09NEFNNXD2", "strategy-agent");
      ("C09NAV7HT26", "testing-agent");
      ("C09PA0D1ED6", "matching-agent");
      ("C09NA0DUTRC", "scheduler-agent");
      ("C09PGG5L7AL", "nick-clarity");
      ("C09N6NVDWKH", "jordan-clarity") ].

(* ------------------------------------------------------------------ *)
(** ** The outside world *)

(** What [requests.post] hands back: [response.status_code],
    [response.text], and what [response.json()] does, either raising a
    [JSONDecodeError] with the given message or returning the decoded
    value. *)
Record Response : Type := mkResponse {
  status_code : Z;
  text : string;
  json : string + pyval
}.

(** An f-string handed to the logger: literal pieces and interpolated
    values, in order. *)
Inductive fpart : Type :=
  | Lit (s : string)
  | Val (v : pyval).

Inductive level : Type := INFO | ERROR.

(** One entry per outbound call, with the answer the call received
    ([None]: it returned; [Some e]: it raised [e]). *)
Inductive effect : Type :=
  | reactions_add (channel timestamp : pyval) (name : string) (raised : option exc)
  | reactions_remove (channel timestamp : pyval) (name : string) (raised : option exc)
  | requests_post (url : option string) (payload : pyval)
      (headers : gmap string string) (timeout : Z) (answer : exc + Response)
  | say (msg : pyval) (raised : option exc)
  | logger (lvl : level) (msg : list fpart).

Definition trace : Type := list effect.

(** The answers of the outside world.  Each oracle is told how many calls
    of the same primitive the handler already made for this event, and the
    arguments of the call.  [GUMLOOP_WEBHOOK] is
    [os.environ.get("GUMLOOP_WEBHOOK_URL")]. *)
Record World : Type := mkWorld {
  GUMLOOP_WEBHOOK : option string;
  slack_reactions_add : nat -> pyval -> pyval -> string -> option exc;
  slack_reactions_remove : nat -> pyval -> pyval -> string -> option exc;
  http_post : nat -> option string -> pyval -> gmap string string -> Z -> exc + Response;
  slack_say : nat -> pyval -> option exc
}.

Definition is_reactions_add (e : effect) : bool :=
  match e with reactions_add _ _ _ _ => true | _ => false end.
Definition is_reactions_remove (e : effect) : bool :=
  match e with reactions_remove _ _ _ _ => true | _ => false end.
Definition is_requests_post (e : effect) : bool :=
  match e with requests_post _ _ _ _ _ => true | _ => false end.
Definition is_say (e : effect) : bool :=
  match e with say _ _ => true | _ => false end.

(** How many entries of a trace satisfy [p]. *)
Fixpoint count (p : effect -> bool) (t : trace) : nat :=
  match t with
  | [] => O
  | e :: t' => if p e then S (count p t') else count p t'
  end.

(* ------------------------------------------------------------------ *)
(** ** The monad: a trace that grows, and exceptions *)

Definition M (A : Type) : Type := trace -> result A * trace.

Definition ret {A} (a : A) : M A := fun t => (Returned a, t).

Definition raise {A} (e : exc) : M A := fun t => (Raised e, t).

Definition bind {A B} (m : M A) (k : A -> M B) : M B :=
  fun t =>
    match m t with
    | (Returned a, t') => k a t'
    | (Raised e, t') => (Raised e, t')
    end.

(** [try: body  except ...: handler e].  What the handler raises is not
    caught again. *)
Definition try_except {A} (body : M A) (handler : exc -> M A) : M A :=
  fun t =>
    match body t with
    | (Returned a, t') => (Returned a, t')
    | (Raised e, t') => handler e t'
    end.

Declare Scope py_scope.
Delimit Scope py_scope with py.
Notation "x <- m ;; k" := (bind m (fun x => k))
  (at level 100, m at next level, k at level 200, right associativity) : py_scope.
Notation "m ;; k" := (bind m (fun _ => k))
  (at level 100, k at level 200, right associativity) : py_scope.
Local Open Scope py_scope.

(** Lifting the answer of a Slack call. *)
Definition answer (r : option exc) : result unit :=
  match r with
  | None => Returned tt
  | Some e => Raised e
  end.

Section Handler.

Variable w : World.

(** [app.client.reactions_add(channel=, timestamp=, name=)] *)
Definition client_reactions_add (channel timestamp : pyval) (name : string) : M unit :=
  fun t =>
    let r := slack_reactions_add w (count is_reactions_add t) channel timestamp name in
    (answer r, t ++ [reactions_add channel timestamp name r]).

(** [app.client.reactions_remove(channel=, timestamp=, name=)] *)
Definition client_reactions_remove (channel timestamp : pyval) (name : string) : M unit :=
  fun t =>
    let r := slack_reactions_remove w (count is_reactions_remove t) channel timestamp name in
    (answer r, t ++ [reactions_remove channel timestamp name r]).

(** [requests.post(url, json=, headers=, timeout=)] *)
Definition post (url : option string) (payload : pyval)
    (headers : gmap string string) (timeout : Z) : M Response :=
  fun t =>
    let r := http_post w (count is_requests_post t) url payload headers timeout in
    (match r with inl e => Raised e | inr resp => Returned resp end,
     t ++ [requests_post url payload headers timeout r]).

(** [say(msg)]: Bolt binds [say] to the channel of the event it hands to
    the handler, so the message goes to the originating channel. *)
Definition call_say (msg : pyval) : M unit :=
  fun t =>
    let r := slack_say w (count is_say t) msg in
    (answer r, t ++ [say msg r]).

(** [logger.info(msg)], [logger.error(msg)]: logging does not raise. *)
Definition logger_info (msg : list fpart) : M unit :=
  fun t => (Returned tt, t ++ [logger INFO msg]).
Definition logger_error (msg : list fpart) : M unit :=
  fun t => (Returned tt, t ++ [logger ERROR msg]).

(** [v in CHANNELS]: hashing an unhashable value raises [TypeError]; a
    hashable value that is not a [str] equals no key. *)
Definition in_CHANNELS (v : pyval) : M bool :=
  match v with
  | PStr s => ret (bool_decide (is_Some (CHANNELS !! s)))
  | PList _ | PDict _ =>
      raise (OtherException "TypeError" ("unhashable type: '" +:+ type_name v +:+ "'"))
  | _ => ret false
  end.

(** [CHANNELS[v]] *)
Definition CHANNELS_getitem (v : pyval) : M string :=
  match v with
  | PStr s =>
      match CHANNELS !! s with
      | Some label => ret label
      | None => raise (OtherException "KeyError" ("'" +:+ s +:+ "'"))
      end
  | PList _ | PDict _ =>
      raise (OtherException "TypeError" ("unhashable type: '" +:+ type_name v +:+ "'"))
  | _ => raise (OtherException "KeyError" (repr_key v))
  end.

(** [v[:n]]: defined on [str] and [list].  A [dict] takes the slice for a
    key and fails on it (a [TypeError] here; a [KeyError] from Python 3.12
    on, where slices are hashable); the other values are not
    subscriptable. *)
Definition slice_to (n : nat) (v : pyval) : M pyval :=
  match v with
  | PStr s => ret (PStr (str_take n s))
  | PList l => ret (PList (take n l))
  | PDict _ => raise (OtherException "TypeError" "unhashable type: 'slice'")
  | _ => raise (OtherException "TypeError"
                  ("'" +:+ type_name v +:+ "' object is not subscriptable"))
  end.

(** [event[k]] *)
Definition getitem (d : gmap string pyval) (k : string) : M pyval :=
  match d !! k with
  | Some v => ret v
  | None => raise (OtherException "KeyError" ("'" +:+ k +:+ "'"))
  end.

(** [response.json()] *)
Definition response_json (r : Response) : M pyval :=
  match json r with
  | inl msg => raise (OtherException "JSONDecodeError" msg)
  | inr v => ret v
  end.

(** [data.get(k, dflt)]: only a [dict] has [get]. *)
Definition data_get (data : pyval) (k : string) (dflt : pyval) : M pyval :=
  match data with
  | PDict d => ret (dict_get_default d k dflt)
  | _ => raise (OtherException "AttributeError"
                  ("'" +:+ type_name data +:+ "' object has no attribute 'get'"))
  end.

(** The JSON body of the webhook request. *)
Definition webhook_payload (channel_id message_text : pyval) : pyval :=
  PDict {[ "channel_id" := channel_id; "message_text" := message_text ]}.

Definition webhook_headers : gmap string string :=
  {[ "Content-Type" := "application/json" ]}.

(** The first [try] of the handler, under the comment
    [# Add "thinking" reaction]. *)
Definition add_thinking_reaction (event : gmap string pyval) (channel_id : pyval) : M unit :=
  try_except
    (ts <- getitem event "ts" ;;
     client_reactions_add channel_id ts "hourglass_flowing_sand")
    (fun e => logger_error [Lit "Could not add reaction: "; Val (PStr (str_exc e))]).

(** The inner [try] of the success branch, under the comment
    [# Replace hourglass with checkmark]; its bare [except] swallows
    whatever is raised. *)
Definition replace_hourglass_with_checkmark (event : gmap string pyval)
    (channel_id : pyval) : M unit :=
  try_except
    (ts <- getitem event "ts" ;;
     client_reactions_remove channel_id ts "hourglass_flowing_sand" ;;
     ts' <- getitem event "ts" ;;
     client_reactions_add channel_id ts' "white_check_mark")
    (fun _ => ret tt).

(** The two [except] clauses of the outer [try], in the order of the
    source: [requests.exceptions.Timeout] first, then [Exception]. *)
Definition on_exception (e : exc) : M unit :=
  if is_timeout e then
    call_say (PStr "⏰ Request timed out - Gumloop took too long. Try again?") ;;
    logger_error [Lit "Gumloop timeout"]
  else
    call_say (PStr ("❌ Error connecting to AI: " +:+ str_exc e)) ;;
    logger_error [Lit "Exception: "; Val (PStr (str_exc e))].

(** The second [try] of the handler, under the comment
    [# Call Gumloop webhook]. *)
Definition call_gumloop_webhook (event : gmap string pyval)
    (channel_id : pyval) (channel_name : string) (message_text : pyval) : M unit :=
  try_except
    (let payload := webhook_payload channel_id message_text in
     response <- post (GUMLOOP_WEBHOOK w) payload webhook_headers 60 ;;
     if status_code response =? 200 then
       data <- response_json response ;;
       ai_response <- data_get data "response" (PStr "Sorry, no response from AI.") ;;
       (* Post AI response to Slack *)
       call_say ai_response ;;
       replace_hourglass_with_checkmark event channel_id ;;
       logger_info [Lit "✅ Response sent to #"; Val (PStr channel_name)]
     else
       call_say (PStr ("⚠️ Gumloop returned error: " +:+ str_int (status_code response))) ;;
       logger_error [Lit "Gumloop error: "; Val (PStr (text response))])
    on_exception.

(** [handle_message(event, say, logger)] *)
Definition handle_message (event : gmap string pyval) : M unit :=
  (* Ignore bot messages *)
  if truthy (dict_get event "bot_id") then ret tt else
  let channel_id := dict_get event "channel" in
  let message_text := dict_get_default event "text" (PStr "") in
  (* Only process messages from our 7 channels *)
  tracked <- in_CHANNELS channel_id ;;
  if negb tracked then ret tt else
  channel_name <- CHANNELS_getitem channel_id ;;
  preview <- slice_to 50 message_text ;;
  logger_info [Lit "Message in #"; Val (PStr channel_name); Lit ": ";
               Val preview; Lit "..."] ;;
  add_thinking_reaction event channel_id ;;
  call_gumloop_webhook event channel_id channel_name message_text.

(** One run of the handler on an event, from the empty trace. *)
Definition run (event : gmap string pyval) : result unit * trace :=
  handle_message event [].

End Handler.

Arguments webhook_payload : simpl never.
Arguments webhook_headers : simpl never.

(* ------------------------------------------------------------------ *)
(** ** Reading a trace *)

(** The webhook requests of a trace. *)
Fixpoint webhook_requests (t : trace) : trace :=
  match t with
  | [] => []
  | requests_post url payload headers timeout a :: t' =>
      requests_post url payload headers timeout a :: webhook_requests t'
  | _ :: t' => webhook_requests t'
  end.

(** The calls of [say], each with the answer it got. *)
Fixpoint say_calls (t : trace) : list (pyval * option exc) :=
  match t with
  | [] => []
  | say msg r :: t' => (msg, r) :: say_calls t'
  | _ :: t' => say_calls t'
  end.

(** The messages that reached the channel: the calls of [say] that
    returned. *)
Fixpoint posted (t : trace) : list pyval :=
  match t with
  | [] => []
  | say msg None :: t' => msg :: posted t'
  | _ :: t' => posted t'
  end.

(** The reaction calls of a trace, in order: which call, on which message
    (channel and timestamp), with which emoji. *)
Inductive reaction_op : Type := Add | Remove.

Fixpoint reaction_attempts (t : trace) : list (reaction_op * pyval * pyval * string) :=
  match t with
  | [] => []
  | reactions_add ch ts name _ :: t' => (Add, ch, ts, name) :: reaction_attempts t'
  | reactions_remove ch ts name _ :: t' => (Remove, ch, ts, name) :: reaction_attempts t'
  | _ :: t' => reaction_attempts t'
  end.

(** The log lines of a trace. *)
Fixpoint logged (t : trace) : list (level * list fpart) :=
  match t with
  | [] => []
  | logger lvl msg :: t' => (lvl, msg) :: logged t'
  | _ :: t' => logged t'
  end.

(** What one run shows to the outside, apart from reactions and log lines:
    how it ended, its webhook requests and its calls of [say]. *)
Definition reply_outcome (r : result unit * trace)
    : result unit * trace * list (pyval * option exc) :=
  (fst r, webhook_requests (snd r), say_calls (snd r)).

(** [needle] occurs in [s]. *)
Definition contains (s needle : string) : Prop :=
  exists pre post, s = pre +:+ needle +:+ post.

(* ------------------------------------------------------------------ *)
(** ** Events *)

(** The filter of the handler, read off an event. *)
Definition origin_is_bot (event : gmap string pyval) : bool :=
  truthy (dict_get event "bot_id").

(** The event names channel [c], and [c] is a key of [CHANNELS]. *)
Definition in_registry (event : gmap string pyval) (c : string) : Prop :=
  event !! "channel" = Some (PStr c) /\ is_Some (CHANNELS !! c).

Definition passes_filter (event : gmap string pyval) (c : string) : Prop :=
  origin_is_bot event = false /\ in_registry event c.

(** No key of [CHANNELS] is the channel of the event (the field may also
    be missing or hold something that is not a [str]). *)
Definition outside_registry (event : gmap string pyval) : Prop :=
  forall c, event !! "channel" = Some (PStr c) -> CHANNELS !! c = None.

(** The text of the event as the handler reads it. *)
Definition message_text_of (event : gmap string pyval) : pyval :=
  dict_get_default event "text" (PStr "").

(** Values that support [v[:50]]. *)
Definition sliceable (v : pyval) : bool :=
  match v with
  | PStr _ | PList _ => true
  | _ => false
  end.

(** The [text] field is a [str] (or a list) when it is there. *)
Definition text_ok (event : gmap string pyval) : Prop :=
  sliceable (message_text_of event) = true.

(** The answer of the world to the one webhook request of an event. *)
Definition webhook_answer (w : World) (event : gmap string pyval) : exc + Response :=
  http_post w 0 (GUMLOOP_WEBHOOK w)
    (webhook_payload (dict_get event "channel") (message_text_of event))
    webhook_headers 60.

(** The thinking reaction of an event: attempted when the event has a
    [ts]. *)
Definition thinking_attempt (event : gmap string pyval) (channel_id : pyval)
    : list (reaction_op * pyval * pyval * string) :=
  match event !! "ts" with
  | Some ts => [(Add, channel_id, ts, "hourglass_flowing_sand")]
  | None => []
  end.

(** A stretch of trace with no webhook request and no call of [say]. *)
Definition quiet (t : trace) : bool :=
  forallb (fun e => negb (is_say e) && negb (is_requests_post e)) t.


(** The reaction calls of [replace_hourglass_with_checkmark], when it is
    the removal call number [n] of the run: nothing without a [ts]; else
    the removal and, if the removal returned, the checkmark. *)
Definition cleanup_attempts (w : World) (event : gmap string pyval) (channel_id : pyval)
    (n : nat) : list (reaction_op * pyval * pyval * string) :=
  match event !! "ts" with
  | None => []
  | Some ts =>
      (Remove, channel_id, ts, "hourglass_flowing_sand") ::
      match slack_reactions_remove w n channel_id ts "hourglass_flowing_sand" with
      | None => [(Add, channel_id, ts, "white_check_mark")]
      | Some _ => []
      end
  end.

(** What the [except] clauses of the outer [try] say to the channel and
    write to the log, for the exception they caught. *)
Definition notice (e : exc) : pyval :=
  if is_timeout e
  then PStr "⏰ Request timed out - Gumloop took too long. Try again?"
  else PStr ("❌ Error connecting to AI: " +:+ str_exc e).

Definition notice_log (e : exc) : list fpart :=
  if is_timeout e then [Lit "Gumloop timeout"]
  else [Lit "Exception: "; Val (PStr (str_exc e))].

(** How a run can end, read off a trace [t]: either it returned, one
    message reached the channel and it was the last call of [say]; or it
    raised what the last call of [say] raised, and no message reached the
    channel. *)
Definition settled (r : result unit) (t : trace) : Prop :=
  (r = Returned tt /\
   exists msg, posted t = [msg] /\ last (say_calls t) = Some (msg, None))
  \/ (exists e msg, r = Raised e /\ posted t = [] /\
                    last (say_calls t) = Some (msg, Some e)).

(** Every recorded answer to [say] is an answer of the world [w]. *)
Definition said_by (w : World) (l : list (pyval * option exc)) : Prop :=
  Forall (fun c => exists n, slack_say w n (fst c) = snd c) l.

(** A body with status 200 that the success branch cannot use, with the
    text of the exception it runs into: [response.json()] raises, or the
    decoded value is not a [dict] and has no [get]. *)
Definition unusable_body (resp : Response) : option string :=
  match json resp with
  | inl msg => Some msg
  | inr (PDict _) => None
  | inr v => Some ("'" +:+ type_name v +:+ "' object has no attribute 'get'")
  end.

(* ------------------------------------------------------------------ *)
(** ** Comparing two runs *)

(** Two traces show the same webhook requests and the same calls of
    [say]. *)
Definition same_reply (t1 t2 : trace) : Prop :=
  webhook_requests t1 = webhook_requests t2 /\ say_calls t1 = say_calls t2.

(** Two computations that, started on traces with the same reply part, end
    the same way and leave traces with the same reply part. *)
Definition agree {A} (m1 m2 : M A) : Prop :=
  forall t1 t2, same_reply t1 t2 ->
    fst (m1 t1) = fst (m2 t2) /\ same_reply (snd (m1 t1)) (snd (m2 t2)).

(** Two worlds that give the same answers to the webhook request and to
    [say], whatever they answer to the reaction calls. *)
Definition same_reply_answers (w1 w2 : World) : Prop :=
  GUMLOOP_WEBHOOK w1 = GUMLOOP_WEBHOOK w2
  /\ (forall n url p h tm, http_post w1 n url p h tm = http_post w2 n url p h tm)
  /\ (forall n msg, slack_say w1 n msg = slack_say w2 n msg).

(* ------------------------------------------------------------------ *)
(** ** Sample events, responses and worlds *)

Module Sample.

(** A user message in #vision-agent. *)
Definition greeting : gmap string pyval :=
  list_to_map
    [ ("type", PStr "message"); ("channel", PStr "C09NEFLB30C");
      ("user", PStr "U09N1CKH4DF"); ("text", PStr "hi there");
      ("ts", PStr "1730000000.000100") ].

(** A [message_deleted] notice: no [text] at the top level. *)
Definition deleted : gmap string pyval :=
  list_to_map
    [ ("type", PStr "message"); ("subtype", PStr "message_deleted");
      ("channel", PStr "C09NEFLB30C"); ("ts", PStr "1730000000.000200") ].

(** A message posted by a bot, and a message in a channel outside
    [CHANNELS]. *)
Definition from_bot : gmap string pyval := <["bot_id" := PStr "B09RESBOT"]> greeting.
Definition elsewhere : gmap string pyval := <["channel" := PStr "C0GENERAL01"]> greeting.

Definition hello_response : Response :=
  mkResponse 200 "{response: hello}" (inr (PDict {[ "response" := PStr "hello" ]})).
Definition empty_response : Response := mkResponse 200 "{}" (inr (PDict ∅)).
Definition error_response : Response :=
  mkResponse 500 "Internal Server Error" (inl "Expecting value: line 1 column 1 (char 0)").
Definition array_response : Response := mkResponse 200 "[]" (inr (PList [])).

Definition read_timeout : exc := RequestsTimeout "Read timed out. (read timeout=60)".
Definition no_reaction : exc := OtherException "SlackApiError" "no_reaction".
Definition missing_scope : exc := OtherException "SlackApiError" "missing_scope".
Definition ratelimited : exc := OtherException "SlackApiError" "ratelimited".

(** A world with fixed answers: [add] and [remove] to the reaction calls,
    [ans] to the webhook request, [said n] to call number [n] of [say]. *)
Definition world (add remove : option exc) (ans : exc + Response)
    (said : nat -> option exc) : World :=
  mkWorld (Some "https://api.gumloop.com/api/v1/start_pipeline")
    (fun _ _ _ _ => add) (fun _ _ _ _ => remove)
    (fun _ _ _ _ _ => ans) (fun n _ => said n).

(** Everything works; or every call of [say] fails. *)
Definition calm (ans : exc + Response) : World := world None None ans (fun _ => None).

End Sample.

(* ------------------------------------------------------------------ *)
(** ** Further readings of a run *)

(** The number of characters of a [str]: the bytes that start a code
    point. *)
Fixpoint str_len (s : string) : nat :=
  match s with
  | EmptyString => O
  | String a s' => if utf8_continuation a then str_len s' else S (str_len s')
  end.

(** The first log line of a forwarded event (line 71). *)
Definition message_in_line (channel_name : string) (preview : pyval) : list fpart :=
  [Lit "Message in #"; Val (PStr channel_name); Lit ": "; Val preview; Lit "..."].

(** The log lines of [add_thinking_reaction] when it makes the first
    [reactions_add] of the run: one error line when [event["ts"]] or the
    call raised, none otherwise. *)
Definition thinking_log (w : World) (event : gmap string pyval) (channel_id : pyval)
    : list (level * list fpart) :=
  match event !! "ts" with
  | None => [(ERROR, [Lit "Could not add reaction: "; Val (PStr "'ts'")])]
  | Some ts =>
      match slack_reactions_add w 0 channel_id ts "hourglass_flowing_sand" with
      | None => []
      | Some e => [(ERROR, [Lit "Could not add reaction: "; Val (PStr (str_exc e))])]
      end
  end.

(** What the [try] body hands to [say] for a response of the webhook: the
    reply (or the fallback) of a usable body with status 200, the status
    notice for another status, nothing for an unusable body. *)
Definition reply_text (resp : Response) : option pyval :=
  if status_code resp =? 200 then
    match json resp with
    | inr (PDict d) =>
        Some (dict_get_default d "response" (PStr "Sorry, no response from AI."))
    | _ => None
    end
  else Some (PStr ("⚠️ Gumloop returned error: " +:+ str_int (status_code resp))).

(** The reply that reached the channel: the webhook answered 200 with a
    usable body and the call of [say] for it returned. *)
Definition delivered (w : World) (event : gmap string pyval) : option pyval :=
  match webhook_answer w event with
  | inl _ => None
  | inr resp =>
      if status_code resp =? 200 then
        match json resp with
        | inr (PDict d) =>
            let ai := dict_get_default d "response" (PStr "Sorry, no response from AI.") in
            match slack_say w 0 ai with
            | None => Some ai
            | Some _ => None
            end
        | _ => None
        end
      else None
  end.

(** The argument of the third [print] of the [__main__] block (line 139):
    the first 50 characters of the webhook URL, or [NOT SET] when the URL
    is unset or empty. *)
Definition forwarding_line (webhook : option string) : string :=
  "🔗 Forwarding to: " +:+
  match webhook with
  | Some url => if negb (String.eqb url "") then str_take 50 url else "NOT SET"
  | None => "NOT SET"
  end +:+ "...".

Module MoreSamples.

(** A message event without [ts], and one whose [text] is JSON [null]. *)
Definition unstamped : gmap string pyval := delete "ts" Sample.greeting.

(** An event whose channel is a JSON array. *)
Definition array_channel : gmap string pyval :=
  <["channel" := PList [PStr "C09NEFLB30C"]]> Sample.greeting.

(** A body whose [response] is JSON [null]. *)
Definition null_response : Response :=
  mkResponse 200 "{response: null}" (inr (PDict {[ "response" := PNone ]})).

Definition connection_refused : exc :=
  OtherException "ConnectionError" "Connection refused".

(** The reply call of [say] fails, the next one works. *)
Definition hiccup (ans : exc + Response) : World :=
  Sample.world None None ans
    (fun n => match n with O => Some Sample.ratelimited | _ => None end).

End MoreSamples.

(* ------------------------------------------------------------------ *)
(** ** Traces are read piecewise *)

Lemma count_app p (t t' : trace) : count p (t ++ t') = (count p t + count p t')%nat.
Proof.
  induction t as [|e t IH]; cbn; [reflexivity|].
  destruct (p e); cbn; rewrite IH; reflexivity.
Qed.

Lemma webhook_requests_app (t t' : trace) :
  webhook_requests (t ++ t') = webhook_requests t ++ webhook_requests t'.
Proof.
  induction t as [|e t IH]; cbn; [reflexivity|].
  destruct e; cbn; rewrite ?IH; reflexivity.
Qed.

Lemma say_calls_app (t t' : trace) : say_calls (t ++ t') = say_calls t ++ say_calls t'.
Proof.
  induction t as [|e t IH]; cbn; [reflexivity|].
  destruct e; cbn; rewrite ?IH; reflexivity.
Qed.

Lemma posted_app (t t' : trace) : posted (t ++ t') = posted t ++ posted t'.
Proof.
  induction t as [|e t IH]; cbn; [reflexivity|].
  destruct e as [| | |msg [e|]|]; cbn; rewrite ?IH; reflexivity.
Qed.

Lemma reaction_attempts_app (t t' : trace) :
  reaction_attempts (t ++ t') = reaction_attempts t ++ reaction_attempts t'.
Proof.
  induction t as [|e t IH]; cbn; [reflexivity|].
  destruct e; cbn; rewrite ?IH; reflexivity.
Qed.

Lemma logged_app (t t' : trace) : logged (t ++ t') = logged t ++ logged t'.
Proof.
  induction t as [|e t IH]; cbn; [reflexivity|].
  destruct e; cbn; rewrite ?IH; reflexivity.
Qed.

Lemma quiet_app (t t' : trace) : quiet (t ++ t') = quiet t && quiet t'.
Proof. apply List.forallb_app. Qed.

Section Quiet.

Variable t : trace.
Hypothesis Hq : quiet t = true.

Lemma quiet_say_calls : say_calls t = [].
Proof using Hq.
  induction t as [|e t' IH]; [reflexivity|].
  cbn in Hq. apply andb_prop in Hq as [He Ht].
  destruct e; cbn in *; try discriminate; auto.
Qed.

Lemma quiet_posted : posted t = [].
Proof using Hq.
  induction t as [|e t' IH]; [reflexivity|].
  cbn in Hq. apply andb_prop in Hq as [He Ht].
  destruct e; cbn in *; try discriminate; auto.
Qed.

Lemma quiet_webhook_requests : webhook_requests t = [].
Proof using Hq.
  induction t as [|e t' IH]; [reflexivity|].
  cbn in Hq. apply andb_prop in Hq as [He Ht].
  destruct e; cbn in *; try discriminate; auto.
Qed.

Lemma quiet_count_say : count is_say t = O.
Proof using Hq.
  induction t as [|e t' IH]; [reflexivity|].
  cbn in Hq. apply andb_prop in Hq as [He Ht].
  destruct e; cbn in *; try discriminate; auto.
Qed.

Lemma quiet_count_post : count is_requests_post t = O.
Proof using Hq.
  induction t as [|e t' IH]; [reflexivity|].
  cbn in Hq. apply andb_prop in Hq as [He Ht].
  destruct e; cbn in *; try discriminate; auto.
Qed.

End Quiet.

Lemma count_say_length t : count is_say t = length (say_calls t).
Proof.
  induction t as [|e t IH]; [reflexivity|].
  destruct e; cbn; rewrite ?IH; reflexivity.
Qed.

Lemma count_post_length t : count is_requests_post t = length (webhook_requests t).
Proof.
  induction t as [|e t IH]; [reflexivity|].
  destruct e; cbn; rewrite ?IH; reflexivity.
Qed.

(* ------------------------------------------------------------------ *)
(** ** The blocks of the handler, one at a time *)

Ltac unfold_calls :=
  unfold getitem, client_reactions_add, client_reactions_remove, call_say,
    logger_info, logger_error, post, answer, try_except, bind, ret, raise in *;
  cbv beta zeta in *.

Ltac quiet_facts H :=
  let H1 := fresh in let H2 := fresh in let H3 := fresh in
  pose proof (quiet_say_calls _ H) as H1;
  pose proof (quiet_posted _ H) as H2;
  pose proof (quiet_webhook_requests _ H) as H3.

Ltac read_trace :=
  unfold settled;
  repeat (progress
    (cbn [say_calls posted webhook_requests reaction_attempts logged app length];
     rewrite ?webhook_requests_app, ?say_calls_app, ?posted_app,
       ?reaction_attempts_app, ?logged_app)).

Section Blocks.

Variable w : World.
Variable event : gmap string pyval.
Variable ch : pyval.

(** The thinking reaction never stops the handler, and adds neither a
    webhook request nor a call of [say]. *)
Lemma add_thinking_reaction_run t :
  exists t', add_thinking_reaction w event ch t = (Returned tt, t ++ t')
    /\ quiet t' = true
    /\ count is_reactions_remove t' = O
    /\ reaction_attempts t' = thinking_attempt event ch.
Proof.
  unfold add_thinking_reaction, thinking_attempt. unfold_calls.
  destruct (event !! "ts") as [ts|]; cbn.
  - destruct (slack_reactions_add w _ ch ts _) as [e|]; cbn;
      rewrite <- ?app_assoc; eexists; repeat split; reflexivity.
  - eexists. repeat split; reflexivity.
Qed.

(** Neither does the replacement of the hourglass, which writes no log
    line either. *)
Lemma replace_hourglass_with_checkmark_run t :
  exists t', replace_hourglass_with_checkmark w event ch t = (Returned tt, t ++ t')
    /\ quiet t' = true
    /\ logged t' = []
    /\ reaction_attempts t' = cleanup_attempts w event ch (count is_reactions_remove t).
Proof.
  unfold replace_hourglass_with_checkmark, cleanup_attempts. unfold_calls.
  destruct (event !! "ts") as [ts|]; cbn.
  - destruct (slack_reactions_remove w _ ch ts _) as [e|]; cbn.
    + eexists. repeat split; reflexivity.
    + destruct (slack_reactions_add w _ ch ts _) as [e|]; cbn;
        rewrite <- ?app_assoc; eexists; repeat split; reflexivity.
  - exists []. rewrite app_nil_r. repeat split; reflexivity.
Qed.

(** An [except] clause of the outer [try] makes one call of [say]; what
    that call raises leaves the handler. *)
Lemma on_exception_run e t :
  on_exception w e t =
    match slack_say w (count is_say t) (notice e) with
    | None => (Returned tt, t ++ [say (notice e) None; logger ERROR (notice_log e)])
    | Some e' => (Raised e', t ++ [say (notice e) (Some e')])
    end.
Proof.
  unfold on_exception, notice, notice_log. unfold_calls.
  destruct (is_timeout e); cbn; destruct (slack_say w _ _); cbn;
    rewrite <- ?app_assoc; reflexivity.
Qed.

End Blocks.

(** An event that passes the filter reaches the webhook block, on a trace
    that holds the first log line and the thinking reaction only. *)
Lemma handle_message_forwards w event c label :
  passes_filter event c -> CHANNELS !! c = Some label -> text_ok event ->
  exists t0,
    quiet t0 = true /\ count is_reactions_remove t0 = O
    /\ reaction_attempts t0 = thinking_attempt event (PStr c)
    /\ run w event =
       call_gumloop_webhook w event (PStr c) label (message_text_of event) t0.
Proof.
  intros (Hbot & Hch & _) Hl Htxt.
  assert (Hc : dict_get event "channel" = PStr c)
    by (unfold dict_get; rewrite Hch; reflexivity).
  unfold run, handle_message. unfold origin_is_bot in Hbot. rewrite Hbot.
  unfold text_ok in Htxt. fold (message_text_of event).
  cbv zeta. rewrite Hc. unfold in_CHANNELS, CHANNELS_getitem. rewrite Hl.
  rewrite bool_decide_eq_true_2 by eauto.
  unfold bind at 1. unfold ret at 1. cbn [negb].
  unfold bind at 1. unfold ret at 1.
  destruct (message_text_of event) as [| | |s|l|]; try discriminate; cbn [slice_to].
  all: unfold bind at 1; unfold ret at 1.
  all: unfold bind at 1; unfold logger_info at 1.
  all: unfold bind at 1.
  all: match goal with |- context [add_thinking_reaction ?w ?ev ?ch ?t] =>
         destruct (add_thinking_reaction_run w ev ch t) as (t' & -> & Hq & Hr & Ha) end.
  all: eexists; split; [|split; [|split; [|reflexivity]]].
  all: rewrite ?quiet_app, ?count_app, ?reaction_attempts_app, ?Hq, ?Hr, ?Ha; reflexivity.
Qed.

(* ------------------------------------------------------------------ *)
(** ** The webhook block, path by path

    The block starts on a trace [t0] without webhook request, call of [say]
    or removal call.  [P a] is the entry of its one request, answered by
    [a]. *)

Section ReplyStage.

Variable w : World.
Variable event : gmap string pyval.
Variable ch : pyval.
Variable name : string.
Variable txt : pyval.
Variable t0 : trace.
Hypothesis Hq : quiet t0 = true.
Hypothesis Hr : count is_reactions_remove t0 = O.

Local Abbreviation ans :=
  (http_post w 0 (GUMLOOP_WEBHOOK w) (webhook_payload ch txt) webhook_headers 60).
Local Abbreviation P a :=
  (requests_post (GUMLOOP_WEBHOOK w) (webhook_payload ch txt) webhook_headers 60 a).

Lemma count_say_after_post a : count is_say (t0 ++ [P a]) = O.
Proof using Hq. rewrite count_app, (quiet_count_say _ Hq). reflexivity. Qed.

(** [requests.post] raises: straight to the [except] clauses. *)
Lemma reply_post_raised e :
  ans = inl e ->
  call_gumloop_webhook w event ch name txt t0 = on_exception w e (t0 ++ [P (inl e)]).
Proof using Hq.
  intros Ha. unfold call_gumloop_webhook. unfold_calls.
  rewrite (quiet_count_post _ Hq). rewrite Ha. reflexivity.
Qed.

(** A status other than 200: the [else] branch. *)
Lemma reply_status_not_200 resp :
  ans = inr resp -> status_code resp <> 200 ->
  let msg := PStr ("⚠️ Gumloop returned error: " +:+ str_int (status_code resp)) in
  call_gumloop_webhook w event ch name txt t0 =
    match slack_say w 0 msg with
    | None => (Returned tt,
               t0 ++ [P (inr resp); say msg None;
                      logger ERROR [Lit "Gumloop error: "; Val (PStr (text resp))]])
    | Some e => on_exception w e (t0 ++ [P (inr resp); say msg (Some e)])
    end.
Proof using Hq.
  intros Ha Hs msg. unfold call_gumloop_webhook. unfold_calls.
  rewrite (quiet_count_post _ Hq). rewrite Ha.
  apply Z.eqb_neq in Hs. rewrite Hs. rewrite count_say_after_post. fold msg.
  destruct (slack_say w 0 msg); rewrite <- ?app_assoc; reflexivity.
Qed.

(** Status 200, and [response.json()] raises. *)
Lemma reply_json_raised resp m :
  ans = inr resp -> status_code resp = 200 -> json resp = inl m ->
  call_gumloop_webhook w event ch name txt t0 =
    on_exception w (OtherException "JSONDecodeError" m) (t0 ++ [P (inr resp)]).
Proof using Hq.
  intros Ha Hs Hj. unfold call_gumloop_webhook, response_json. unfold_calls.
  rewrite (quiet_count_post _ Hq). rewrite Ha.
  apply Z.eqb_eq in Hs. rewrite Hs, Hj. reflexivity.
Qed.

(** Status 200, and the decoded body has no [get]. *)
Lemma reply_not_a_dict resp v :
  ans = inr resp -> status_code resp = 200 -> json resp = inr v ->
  (forall d, v <> PDict d) ->
  call_gumloop_webhook w event ch name txt t0 =
    on_exception w
      (OtherException "AttributeError"
         ("'" +:+ type_name v +:+ "' object has no attribute 'get'"))
      (t0 ++ [P (inr resp)]).
Proof using Hq.
  intros Ha Hs Hj Hv. unfold call_gumloop_webhook, response_json, data_get. unfold_calls.
  rewrite (quiet_count_post _ Hq). rewrite Ha.
  apply Z.eqb_eq in Hs. rewrite Hs, Hj.
  destruct v; try reflexivity. exfalso; eapply Hv; reflexivity.
Qed.

(** Status 200 and a [dict]: the reply is posted; then the reactions are
    replaced and the success is logged, or, if [say] raised, the [except]
    clauses take over. *)
Lemma reply_dict resp d :
  ans = inr resp -> status_code resp = 200 -> json resp = inr (PDict d) ->
  let ai := dict_get_default d "response" (PStr "Sorry, no response from AI.") in
  match slack_say w 0 ai with
  | None =>
      exists t', quiet t' = true /\ logged t' = []
        /\ reaction_attempts t' = cleanup_attempts w event ch 0
        /\ call_gumloop_webhook w event ch name txt t0 =
           (Returned tt,
            t0 ++ [P (inr resp); say ai None] ++ t' ++
            [logger INFO [Lit "✅ Response sent to #"; Val (PStr name)]])
  | Some e =>
      call_gumloop_webhook w event ch name txt t0 =
        on_exception w e (t0 ++ [P (inr resp); say ai (Some e)])
  end.
Proof using Hq Hr.
  intros Ha Hs Hj ai. apply Z.eqb_eq in Hs.
  destruct (slack_say w 0 ai) as [e|] eqn:Hsay.
  - unfold call_gumloop_webhook, response_json, data_get. unfold_calls.
    rewrite (quiet_count_post _ Hq). rewrite Ha, Hs, Hj.
    fold ai. rewrite count_say_after_post, Hsay, <- app_assoc. reflexivity.
  - unfold call_gumloop_webhook, response_json, data_get. unfold_calls.
    rewrite (quiet_count_post _ Hq). rewrite Ha, Hs, Hj.
    fold ai. rewrite count_say_after_post, Hsay.
    match goal with |- context [replace_hourglass_with_checkmark ?w' ?ev ?c ?t] =>
      destruct (replace_hourglass_with_checkmark_run w' ev c t)
        as (t' & -> & Hq' & Hl' & Ha');
      replace (count is_reactions_remove t) with O in Ha'
        by (rewrite !count_app, Hr; reflexivity)
    end.
    exists t'. repeat split; try assumption.
    rewrite <- !app_assoc. reflexivity.
Qed.

(** An [except] clause entered after the request and after calls of [say]
    that all raised. *)
Lemma on_exception_settles a e pre :
  posted pre = [] -> webhook_requests pre = [] -> said_by w (say_calls pre) ->
  exists r t2, on_exception w e (t0 ++ P a :: pre) = (r, t0 ++ P a :: t2)
    /\ webhook_requests t2 = [] /\ settled r t2
    /\ length (say_calls t2) = S (length (say_calls pre))
    /\ said_by w (say_calls t2).
Proof using Type.
  clear Hq Hr. intros Hp Hw Hsb. rewrite on_exception_run.
  destruct (slack_say w _ (notice e)) as [e'|] eqn:Hsay;
    (eexists _, (pre ++ _); split;
      [rewrite <- app_assoc, <- app_comm_cons; reflexivity|]);
    (split; [read_trace; rewrite Hw; reflexivity|]);
    (split; [|split; [read_trace; rewrite length_app; cbn; lia|]]).
  - right. exists e', (notice e). read_trace. rewrite Hp, last_snoc. auto.
  - read_trace. apply Forall_app. split; [exact Hsb|].
    repeat constructor. eexists. exact Hsay.
  - left. split; [reflexivity|]. exists (notice e). read_trace.
    rewrite Hp, last_snoc. auto.
  - read_trace. apply Forall_app. split; [exact Hsb|].
    repeat constructor. eexists. exact Hsay.
Qed.

Ltac settle_handler :=
  match goal with
  | |- context [on_exception ?w ?e (?t ++ requests_post ?u ?p ?h ?tm ?a :: ?pre)] =>
      let r := fresh "r" in let t2 := fresh "t2" in
      destruct (on_exception_settles a e pre) as (r & t2 & -> & ? & ? & ? & ?);
      [first [reflexivity | repeat constructor; eexists; eassumption] ..
      | exists r, t2; cbn in *; repeat split; auto; lia]
  end.

(** Whatever the world answers, the block makes its one request, then one
    or two calls of [say], and ends [settled]. *)
Lemma reply_stage_settles :
  exists r t2, call_gumloop_webhook w event ch name txt t0 = (r, t0 ++ P ans :: t2)
    /\ webhook_requests t2 = [] /\ settled r t2
    /\ (length (say_calls t2) = 1 \/ length (say_calls t2) = 2)%nat
    /\ said_by w (say_calls t2).
Proof using Hq Hr.
  destruct ans as [e|resp] eqn:Ha.
  { rewrite (reply_post_raised e Ha). settle_handler. }
  destruct (decide (status_code resp = 200)) as [Hs|Hs].
  2: { rewrite (reply_status_not_200 resp Ha Hs).
       destruct (slack_say w 0 _) as [e|] eqn:Hsay; [settle_handler|].
       eexists _, _. split; [reflexivity|]. split; [reflexivity|].
       split; [|split; [auto|repeat constructor; eexists; exact Hsay]].
       left. split; [reflexivity|]. eexists. split; reflexivity. }
  destruct (json resp) as [m|v] eqn:Hj.
  { rewrite (reply_json_raised resp m Ha Hs Hj). settle_handler. }
  destruct (match v with PDict d => Some d | _ => None end) as [d|] eqn:Hv.
  2: { rewrite (reply_not_a_dict resp v Ha Hs Hj) by (intros d ->; discriminate).
       settle_handler. }
  destruct v; try discriminate. injection Hv as ->.
  pose proof (reply_dict resp d Ha Hs Hj) as Hd. cbv zeta in Hd.
  destruct (slack_say w 0 _) as [e|] eqn:Hsay.
  - rewrite Hd. settle_handler.
  - destruct Hd as (t' & Hq' & _ & _ & ->). quiet_facts Hq'.
    eexists _, _. split; [reflexivity|]. read_trace.
    rewrite ?H, ?H0, ?H1. read_trace. split; [reflexivity|].
    split; [|split; [auto|repeat constructor; eexists; exact Hsay]].
    left. split; [reflexivity|]. eexists. split; reflexivity.
Qed.

End ReplyStage.

(* ------------------------------------------------------------------ *)
(** ** Runs that differ in the reaction calls only *)

Lemma same_reply_quiet t1 t2 t1' t2' :
  same_reply t1 t2 -> quiet t1' = true -> quiet t2' = true ->
  same_reply (t1 ++ t1') (t2 ++ t2').
Proof.
  intros [Hw Hs] H1 H2. split.
  - rewrite !webhook_requests_app, Hw, (quiet_webhook_requests _ H1),
      (quiet_webhook_requests _ H2). reflexivity.
  - rewrite !say_calls_app, Hs, (quiet_say_calls _ H1), (quiet_say_calls _ H2).
    reflexivity.
Qed.

Section Agree.

Context {A B : Type}.

Lemma agree_ret (a : A) : agree (ret a) (ret a).
Proof. intros t1 t2 H. split; [reflexivity|exact H]. Qed.

Lemma agree_raise (e : exc) : agree (@raise A e) (raise e).
Proof. intros t1 t2 H. split; [reflexivity|exact H]. Qed.

Lemma agree_bind (m1 m2 : M A) (k1 k2 : A -> M B) :
  agree m1 m2 -> (forall a, agree (k1 a) (k2 a)) -> agree (bind m1 k1) (bind m2 k2).
Proof.
  intros Hm Hk t1 t2 H. unfold bind. specialize (Hm t1 t2 H).
  destruct (m1 t1) as [[a1|e1] t1'], (m2 t2) as [[a2|e2] t2']; cbn in Hm;
    destruct Hm as [Hr Ht]; try discriminate.
  - injection Hr as ->. apply Hk, Ht.
  - injection Hr as ->. split; [reflexivity|exact Ht].
Qed.

Lemma agree_try_except (b1 b2 : M A) (h1 h2 : exc -> M A) :
  agree b1 b2 -> (forall e, agree (h1 e) (h2 e)) ->
  agree (try_except b1 h1) (try_except b2 h2).
Proof.
  intros Hb Hh t1 t2 H. unfold try_except. specialize (Hb t1 t2 H).
  destruct (b1 t1) as [[a1|e1] t1'], (b2 t2) as [[a2|e2] t2']; cbn in Hb;
    destruct Hb as [Hr Ht]; try discriminate.
  - injection Hr as ->. split; [reflexivity|exact Ht].
  - injection Hr as ->. apply Hh, Ht.
Qed.

End Agree.

Section AgreeCalls.

Variables w1 w2 : World.
Hypothesis Hw : same_reply_answers w1 w2.

Lemma agree_logger_info msg : agree (logger_info msg) (logger_info msg).
Proof using Type.
  intros t1 t2 H. split; [reflexivity|]. cbn. apply same_reply_quiet; auto.
Qed.

Lemma agree_logger_error msg : agree (logger_error msg) (logger_error msg).
Proof using Type.
  intros t1 t2 H. split; [reflexivity|]. cbn. apply same_reply_quiet; auto.
Qed.

Lemma agree_call_say msg : agree (call_say w1 msg) (call_say w2 msg).
Proof using Hw.
  intros t1 t2 [H1 H2]. destruct Hw as (_ & _ & Hs).
  unfold call_say. cbn. rewrite !count_say_length, H2, Hs.
  split; [reflexivity|]. split.
  - rewrite !webhook_requests_app, H1. reflexivity.
  - rewrite !say_calls_app, H2. reflexivity.
Qed.

Lemma agree_post payload headers tm :
  agree (post w1 (GUMLOOP_WEBHOOK w1) payload headers tm)
        (post w2 (GUMLOOP_WEBHOOK w2) payload headers tm).
Proof using Hw.
  intros t1 t2 [H1 H2]. destruct Hw as (Hu & Hp & _).
  unfold post. cbn. rewrite !count_post_length, H1, Hu, Hp.
  split; [reflexivity|]. split.
  - rewrite !webhook_requests_app, H1. reflexivity.
  - rewrite !say_calls_app, H2. reflexivity.
Qed.

(** The two reaction blocks may take different paths in the two worlds:
    both return, and neither touches the reply part of the trace. *)
Lemma agree_add_thinking_reaction event ch :
  agree (add_thinking_reaction w1 event ch) (add_thinking_reaction w2 event ch).
Proof using Type.
  intros t1 t2 H.
  destruct (add_thinking_reaction_run w1 event ch t1) as (t1' & -> & Hq1 & _).
  destruct (add_thinking_reaction_run w2 event ch t2) as (t2' & -> & Hq2 & _).
  split; [reflexivity|]. apply same_reply_quiet; assumption.
Qed.

Lemma agree_replace_hourglass_with_checkmark event ch :
  agree (replace_hourglass_with_checkmark w1 event ch)
        (replace_hourglass_with_checkmark w2 event ch).
Proof using Type.
  intros t1 t2 H.
  destruct (replace_hourglass_with_checkmark_run w1 event ch t1) as (t1' & -> & Hq1 & _).
  destruct (replace_hourglass_with_checkmark_run w2 event ch t2) as (t2' & -> & Hq2 & _).
  split; [reflexivity|]. apply same_reply_quiet; assumption.
Qed.

Lemma agree_on_exception e : agree (on_exception w1 e) (on_exception w2 e).
Proof using Hw.
  unfold on_exception. destruct (is_timeout e);
    (apply agree_bind; [apply agree_call_say | intros _; apply agree_logger_error]).
Qed.

Lemma agree_call_gumloop_webhook event ch name txt :
  agree (call_gumloop_webhook w1 event ch name txt)
        (call_gumloop_webhook w2 event ch name txt).
Proof using Hw.
  unfold call_gumloop_webhook. cbv zeta.
  apply agree_try_except; [|apply agree_on_exception].
  apply agree_bind; [apply agree_post|]. intros response.
  destruct (status_code response =? 200).
  - apply agree_bind.
    { unfold response_json. destruct (json response);
        [apply agree_raise | apply agree_ret]. }
    intros data. apply agree_bind.
    { unfold data_get. destruct data; first [apply agree_raise | apply agree_ret]. }
    intros ai_response. apply agree_bind; [apply agree_call_say|]. intros _.
    apply agree_bind; [apply agree_replace_hourglass_with_checkmark|]. intros _.
    apply agree_logger_info.
  - apply agree_bind; [apply agree_call_say | intros _; apply agree_logger_error].
Qed.

Lemma agree_handle_message event :
  agree (handle_message w1 event) (handle_message w2 event).
Proof using Hw.
  unfold handle_message. cbv zeta.
  destruct (truthy (dict_get event "bot_id")); [apply agree_ret|].
  apply agree_bind.
  { unfold in_CHANNELS. destruct (dict_get event "channel");
      first [apply agree_raise | apply agree_ret]. }
  intros tracked. destruct (negb tracked); [apply agree_ret|].
  apply agree_bind.
  { unfold CHANNELS_getitem. destruct (dict_get event "channel");
      try apply agree_raise.
    destruct (CHANNELS !! s); [apply agree_ret | apply agree_raise]. }
  intros channel_name. apply agree_bind.
  { unfold slice_to. destruct (dict_get_default event "text" (PStr ""));
      first [apply agree_raise | apply agree_ret]. }
  intros preview. apply agree_bind; [apply agree_logger_info|]. intros _.
  apply agree_bind; [apply agree_add_thinking_reaction|]. intros _.
  apply agree_call_gumloop_webhook.
Qed.

End AgreeCalls.

(* ------------------------------------------------------------------ *)
(** ** Whole runs *)

Ltac quiet_prefix H :=
  rewrite ?say_calls_app, ?posted_app, ?webhook_requests_app, ?logged_app,
    ?reaction_attempts_app,
    ?(quiet_say_calls _ H), ?(quiet_posted _ H), ?(quiet_webhook_requests _ H).


Lemma passes_filter_channel event c :
  passes_filter event c -> dict_get event "channel" = PStr c.
Proof. intros (_ & Hch & _). unfold dict_get. rewrite Hch. reflexivity. Qed.

Lemma run_forwards w event c :
  passes_filter event c -> text_ok event ->
  exists label t0,
    quiet t0 = true /\ count is_reactions_remove t0 = O
    /\ reaction_attempts t0 = thinking_attempt event (PStr c)
    /\ webhook_answer w event =
       http_post w 0 (GUMLOOP_WEBHOOK w)
         (webhook_payload (PStr c) (message_text_of event)) webhook_headers 60
    /\ run w event =
       call_gumloop_webhook w event (PStr c) label (message_text_of event) t0.
Proof.
  intros Hf Htxt. pose proof Hf as (_ & _ & [label Hl]). exists label.
  destruct (handle_message_forwards w event c label Hf Hl Htxt)
    as (t0 & Hq & Hr & Ha & Hrun).
  exists t0. unfold webhook_answer. rewrite (passes_filter_channel _ _ Hf). auto.
Qed.

(** Every run of an event that passes the filter: a quiet prefix, the one
    webhook request, then one or two calls of [say]. *)
Lemma run_settles w event c :
  passes_filter event c -> text_ok event ->
  exists r t0 t2,
    run w event =
      (r, t0 ++ requests_post (GUMLOOP_WEBHOOK w)
                  (webhook_payload (PStr c) (message_text_of event))
                  webhook_headers 60 (webhook_answer w event) :: t2)
    /\ quiet t0 = true /\ webhook_requests t2 = [] /\ settled r t2
    /\ (length (say_calls t2) = 1 \/ length (say_calls t2) = 2)%nat
    /\ said_by w (say_calls t2).
Proof.
  intros Hf Htxt.
  destruct (run_forwards w event c Hf Htxt)
    as (label & t0 & Hq & Hr & _ & -> & ->).
  destruct (reply_stage_settles w event (PStr c) label (message_text_of event) t0 Hq Hr)
    as (r & t2 & -> & ? & ? & ? & ?).
  exists r, t0, t2. auto 10.
Qed.

(** The run of an event whose webhook request raised [e]. *)
Lemma run_post_raised w event c e :
  passes_filter event c -> text_ok event -> webhook_answer w event = inl e ->
  exists t0, quiet t0 = true
    /\ reaction_attempts t0 = thinking_attempt event (PStr c)
    /\ run w event =
       match slack_say w 0 (notice e) with
       | None =>
           (Returned tt,
            (t0 ++ [requests_post (GUMLOOP_WEBHOOK w)
                      (webhook_payload (PStr c) (message_text_of event))
                      webhook_headers 60 (inl e)])
            ++ [say (notice e) None; logger ERROR (notice_log e)])
       | Some e' =>
           (Raised e',
            (t0 ++ [requests_post (GUMLOOP_WEBHOOK w)
                      (webhook_payload (PStr c) (message_text_of event))
                      webhook_headers 60 (inl e)])
            ++ [say (notice e) (Some e')])
       end.
Proof.
  intros Hf Htxt Ha.
  destruct (run_forwards w event c Hf Htxt) as (label & t0 & Hq & Hr & Hth & Hans & ->).
  rewrite Hans in Ha. exists t0. split; [exact Hq|]. split; [exact Hth|].
  rewrite (reply_post_raised w event (PStr c) label (message_text_of event) t0 Hq e Ha).
  rewrite on_exception_run, count_say_after_post by exact Hq. reflexivity.
Qed.

(** The run of an event whose webhook answered 200 with a [dict]. *)
Lemma run_reply_dict w event c resp d :
  passes_filter event c -> text_ok event ->
  webhook_answer w event = inr resp -> status_code resp = 200 ->
  json resp = inr (PDict d) ->
  let ai := dict_get_default d "response" (PStr "Sorry, no response from AI.") in
  head (say_calls (snd (run w event))) = Some (ai, slack_say w 0 ai)
  /\ (slack_say w 0 ai = None ->
      fst (run w event) = Returned tt
      /\ say_calls (snd (run w event)) = [(ai, None)]
      /\ posted (snd (run w event)) = [ai]
      /\ reaction_attempts (snd (run w event)) =
         thinking_attempt event (PStr c) ++ cleanup_attempts w event (PStr c) 0).
Proof.
  intros Hf Htxt Ha Hs Hj ai.
  destruct (run_forwards w event c Hf Htxt) as (label & t0 & Hq & Hr & Hth & Hans & Hrun).
  rewrite Hans in Ha.
  pose proof (reply_dict w event (PStr c) label (message_text_of event) t0 Hq Hr
                resp d Ha Hs Hj) as Hd.
  cbv zeta in Hd. fold ai in Hd. rewrite Hrun.
  destruct (slack_say w 0 ai) as [e|] eqn:Hsay.
  - rewrite Hd, on_exception_run. split; [|discriminate].
    destruct (slack_say w _ (notice e)); cbn [snd]; quiet_prefix Hq; reflexivity.
  - destruct Hd as (t' & Hq' & _ & Hre & ->). cbn [fst snd].
    quiet_prefix Hq. quiet_prefix Hq'. cbn. rewrite Hth, Hre, !app_nil_r. auto.
Qed.

Lemma passes_filter_greeting : passes_filter Sample.greeting "C09NEFLB30C".
Proof. repeat split. eexists. reflexivity. Qed.

Lemma passes_filter_deleted : passes_filter Sample.deleted "C09NEFLB30C".
Proof. repeat split. eexists. reflexivity. Qed.

Lemma outside_registry_elsewhere : outside_registry Sample.elsewhere.
Proof. intros c Hc. vm_compute in Hc. injection Hc as <-. reflexivity. Qed.

(* ------------------------------------------------------------------ *)
(** ** The properties of the handler *)

Import Sample.

(** C1. An event that passes the filter (no truthy [bot_id], a channel of
    [CHANNELS]; its text, when there, a [str]) causes exactly one webhook
    request, whatever the world answers: one [requests.post] to
    [GUMLOOP_WEBHOOK] with timeout 60 and JSON content type, whose
    [channel_id] is the channel of the event and whose [message_text] is
    its text. *)
Theorem one_webhook_request_per_event w event c :
  passes_filter event c -> text_ok event ->
  webhook_requests (snd (run w event)) =
    [requests_post (GUMLOOP_WEBHOOK w)
       (PDict {[ "channel_id" := PStr c; "message_text" := message_text_of event ]})
       {[ "Content-Type" := "application/json" ]} 60 (webhook_answer w event)]
  /\ (forall txt, event !! "text" = Some txt -> message_text_of event = txt).
Proof.
  intros Hf Htxt. split.
  - destruct (run_settles w event c Hf Htxt) as (r & t0 & t2 & -> & Hq & Hw & _).
    cbn [snd]. rewrite webhook_requests_app, (quiet_webhook_requests _ Hq).
    cbn [webhook_requests app]. rewrite Hw. reflexivity.
  - intros txt Ht. unfold message_text_of, dict_get_default. rewrite Ht. reflexivity.
Qed.

Lemma one_webhook_request_per_event_witness :
  webhook_requests (snd (run (calm (inr hello_response)) greeting)) =
    [requests_post (Some "https://api.gumloop.com/api/v1/start_pipeline")
       (PDict {[ "channel_id" := PStr "C09NEFLB30C"; "message_text" := PStr "hi there" ]})
       {[ "Content-Type" := "application/json" ]} 60 (inr hello_response)].
Proof.
  exact (proj1 (one_webhook_request_per_event (calm (inr hello_response)) greeting
                  "C09NEFLB30C" passes_filter_greeting eq_refl)).
Defined.

(** The text is sliced for the log line before anything is sent: a [text]
    that is there but is no [str], here JSON [null], makes the handler
    raise with an empty trace.  The preview counts characters, not
    bytes. *)
Example null_text_raises_before_the_request :
  run (calm (inr hello_response)) (<["text" := PNone]> greeting) =
    (Raised (OtherException "TypeError" "'NoneType' object is not subscriptable"), []).
Proof. vm_compute. reflexivity. Qed.

Example preview_counts_characters : str_take 3 "a❌bcd" = "a❌b".
Proof. vm_compute. reflexivity. Qed.

(** C2. An event with a truthy [bot_id], or whose channel is no key of
    [CHANNELS], leaves an empty trace: no reaction, no webhook request, no
    reply, no log line.  The handler returns; only when the channel field
    holds an unhashable value (a JSON array or object) does the membership
    test itself raise, still with an empty trace. *)
Theorem filtered_event_has_no_effect w event :
  origin_is_bot event = true \/ outside_registry event ->
  snd (run w event) = []
  /\ (origin_is_bot event = true \/ hashable (dict_get event "channel") = true ->
      fst (run w event) = Returned tt).
Proof.
  intros H. unfold run, handle_message. fold (origin_is_bot event).
  destruct (origin_is_bot event) eqn:Hbot; [split; reflexivity|].
  destruct H as [H|H]; [discriminate|]. cbv zeta.
  destruct (dict_get event "channel") as [| | |c| |] eqn:Hd;
    unfold in_CHANNELS, bind, ret, raise; cbn [negb fst snd hashable];
    try (split; reflexivity).
  - assert (Hch : event !! "channel" = Some (PStr c)).
    { unfold dict_get in Hd. destruct (event !! "channel"); cbn in Hd; congruence. }
    rewrite (H c Hch).
    rewrite bool_decide_eq_false_2 by (intros [? ?]; discriminate).
    split; reflexivity.
  - split; [reflexivity|]. intros [?|?]; discriminate.
  - split; [reflexivity|]. intros [?|?]; discriminate.
Qed.

Lemma filtered_event_has_no_effect_witness :
  (origin_is_bot from_bot = true /\ outside_registry elsewhere)
  /\ (snd (run (calm (inr hello_response)) from_bot) = []
      /\ fst (run (calm (inr hello_response)) from_bot) = Returned tt)
  /\ (snd (run (calm (inr hello_response)) elsewhere) = []
      /\ fst (run (calm (inr hello_response)) elsewhere) = Returned tt).
Proof.
  split; [split; [reflexivity | exact outside_registry_elsewhere]|].
  split.
  - destruct (filtered_event_has_no_effect (calm (inr hello_response)) from_bot
                (or_introl eq_refl)) as [Ht Hr].
    split; [exact Ht | apply Hr; left; reflexivity].
  - destruct (filtered_event_has_no_effect (calm (inr hello_response)) elsewhere
                (or_intror outside_registry_elsewhere)) as [Ht Hr].
    split; [exact Ht | apply Hr; right; reflexivity].
Defined.

(** The filter tests the truth value of [bot_id], not its presence: an
    empty [bot_id] does not stop the event. *)
Example empty_bot_id_is_not_filtered :
  origin_is_bot (<["bot_id" := PStr ""]> greeting) = false
  /\ posted (snd (run (calm (inr hello_response)) (<["bot_id" := PStr ""]> greeting))) =
     [PStr "hello"].
Proof. split; vm_compute; reflexivity. Qed.

(** C3, as the code has it.  For an event that passes the filter and has a
    [ts]: if the webhook answers 200 with a body whose [response] is
    ["hello"] and the call of [say] returns, then the handler returns,
    ["hello"] is the one message posted, and after the thinking reaction
    the handler calls [reactions_remove] for the hourglass; it calls
    [reactions_add] for the checkmark exactly when that removal returned.
    The answers to the reaction calls change nothing else. *)
Theorem hello_is_posted_then_reactions_replaced w event c ts resp d :
  passes_filter event c -> text_ok event -> event !! "ts" = Some ts ->
  webhook_answer w event = inr resp -> status_code resp = 200 ->
  json resp = inr (PDict d) -> d !! "response" = Some (PStr "hello") ->
  slack_say w 0 (PStr "hello") = None ->
  fst (run w event) = Returned tt
  /\ say_calls (snd (run w event)) = [(PStr "hello", None)]
  /\ posted (snd (run w event)) = [PStr "hello"]
  /\ reaction_attempts (snd (run w event)) =
       (Add, PStr c, ts, "hourglass_flowing_sand")
       :: (Remove, PStr c, ts, "hourglass_flowing_sand")
       :: match slack_reactions_remove w 0 (PStr c) ts "hourglass_flowing_sand" with
          | None => [(Add, PStr c, ts, "white_check_mark")]
          | Some _ => []
          end.
Proof.
  intros Hf Htxt Hts Ha Hs Hj Hd Hsay.
  destruct (run_reply_dict w event c resp d Hf Htxt Ha Hs Hj) as [_ H].
  unfold dict_get_default in H. rewrite Hd in H. cbn [default] in H.
  destruct (H Hsay) as (H1 & H2 & H3 & H4).
  rewrite H4. unfold thinking_attempt, cleanup_attempts. rewrite Hts. auto.
Qed.

Lemma hello_is_posted_then_reactions_replaced_witness :
  posted (snd (run (calm (inr hello_response)) greeting)) = [PStr "hello"]
  /\ reaction_attempts (snd (run (calm (inr hello_response)) greeting)) =
     [(Add, PStr "C09NEFLB30C", PStr "1730000000.000100", "hourglass_flowing_sand");
      (Remove, PStr "C09NEFLB30C", PStr "1730000000.000100", "hourglass_flowing_sand");
      (Add, PStr "C09NEFLB30C", PStr "1730000000.000100", "white_check_mark")].
Proof.
  destruct (hello_is_posted_then_reactions_replaced (calm (inr hello_response)) greeting
              "C09NEFLB30C" (PStr "1730000000.000100") hello_response
              {[ "response" := PStr "hello" ]}
              passes_filter_greeting eq_refl eq_refl eq_refl eq_refl eq_refl eq_refl eq_refl)
    as (_ & _ & Hp & Hr).
  split; [exact Hp | exact Hr].
Defined.

(** C3, as the claim has it, fails: when [reactions_remove] raises (here
    Slack answers [no_reaction]), the bare [except] ends the inner [try]
    and the checkmark is never attempted, although ["hello"] was posted. *)
Lemma checkmark_skipped_when_removal_fails :
  ~ (forall w event c resp d,
       passes_filter event c -> text_ok event ->
       webhook_answer w event = inr resp -> status_code resp = 200 ->
       json resp = inr (PDict d) -> d !! "response" = Some (PStr "hello") ->
       posted (snd (run w event)) = [PStr "hello"]
       /\ (exists ch ts, In (Remove, ch, ts, "hourglass_flowing_sand")
                           (reaction_attempts (snd (run w event))))
       /\ (exists ch ts, In (Add, ch, ts, "white_check_mark")
                           (reaction_attempts (snd (run w event))))).
Proof.
  intros H.
  destruct (H (world None (Some no_reaction) (inr hello_response) (fun _ => None))
              greeting "C09NEFLB30C" hello_response {[ "response" := PStr "hello" ]}
              passes_filter_greeting eq_refl eq_refl eq_refl eq_refl eq_refl)
    as (_ & _ & ch & ts & Hin).
  vm_compute in Hin. destruct Hin as [Hin|[Hin|[]]]; discriminate.
Qed.

(** C4. For an event that passes the filter, if the webhook answers 200
    with a JSON object without the key [response], the handler's reply, its
    first call of [say], carries the fallback text; when that call returns,
    the fallback is the one message posted. *)
Theorem missing_response_key_gets_fallback w event c resp d :
  passes_filter event c -> text_ok event ->
  webhook_answer w event = inr resp -> status_code resp = 200 ->
  json resp = inr (PDict d) -> d !! "response" = None ->
  let txt := "Sorry, no response from AI." in
  head (say_calls (snd (run w event))) = Some (PStr txt, slack_say w 0 (PStr txt))
  /\ (slack_say w 0 (PStr txt) = None ->
      fst (run w event) = Returned tt
      /\ say_calls (snd (run w event)) = [(PStr txt, None)]
      /\ posted (snd (run w event)) = [PStr txt]).
Proof.
  intros Hf Htxt Ha Hs Hj Hd txt.
  destruct (run_reply_dict w event c resp d Hf Htxt Ha Hs Hj) as [H1 H2].
  unfold dict_get_default in H1, H2. rewrite Hd in H1, H2. cbn [default] in H1, H2.
  split; [exact H1|]. intros Hsay. destruct (H2 Hsay) as (? & ? & ? & _). auto.
Qed.

Lemma missing_response_key_gets_fallback_witness :
  fst (run (calm (inr empty_response)) greeting) = Returned tt
  /\ say_calls (snd (run (calm (inr empty_response)) greeting)) =
     [(PStr "Sorry, no response from AI.", None)]
  /\ posted (snd (run (calm (inr empty_response)) greeting)) =
     [PStr "Sorry, no response from AI."].
Proof.
  exact (proj2 (missing_response_key_gets_fallback (calm (inr empty_response)) greeting
                  "C09NEFLB30C" empty_response ∅
                  passes_filter_greeting eq_refl eq_refl eq_refl eq_refl eq_refl)
               eq_refl).
Defined.




(** C6. For an event that passes the filter, if the webhook request raises
    [requests.exceptions.Timeout], the handler makes one call of [say], with
    the time-out notice that suggests a retry; the only reaction call of the
    run is the thinking reaction (no removal, no checkmark); when the call of
    [say] returns, the notice is the one message posted. *)
Theorem timeout_notice_without_cleanup w event c m :
  passes_filter event c -> text_ok event ->
  webhook_answer w event = inl (RequestsTimeout m) ->
  let txt := "⏰ Request timed out - Gumloop took too long. Try again?" in
  say_calls (snd (run w event)) = [(PStr txt, slack_say w 0 (PStr txt))]
  /\ contains txt "timed out" /\ contains txt "Try again"
  /\ reaction_attempts (snd (run w event)) = thinking_attempt event (PStr c)
  /\ (forall op ch ts name,
        In (op, ch, ts, name) (reaction_attempts (snd (run w event))) ->
        op = Add /\ name = "hourglass_flowing_sand")
  /\ (slack_say w 0 (PStr txt) = None ->
      fst (run w event) = Returned tt /\ posted (snd (run w event)) = [PStr txt]).
Proof.
  intros Hf Htxt Ha txt.
  destruct (run_post_raised w event c _ Hf Htxt Ha) as (t0 & Hq & Hth & Hrun).
  change (notice (RequestsTimeout m)) with (PStr txt) in Hrun.
  assert (Hre : reaction_attempts (snd (run w event)) = thinking_attempt event (PStr c)).
  { rewrite Hrun. destruct (slack_say w 0 (PStr txt)); cbn [snd];
      quiet_prefix Hq; cbn; rewrite Hth, !app_nil_r; reflexivity. }
  split; [|split; [|split; [|split; [exact Hre|split]]]].
  - rewrite Hrun. destruct (slack_say w 0 (PStr txt)); cbn [snd];
      quiet_prefix Hq; reflexivity.
  - exists "⏰ Request ", " - Gumloop took too long. Try again?". reflexivity.
  - exists "⏰ Request timed out - Gumloop took too long. ", "?". reflexivity.
  - intros op ch ts name. rewrite Hre. unfold thinking_attempt.
    destruct (event !! "ts"); cbn; [|tauto].
    intros [H|[]]. injection H as <- _ _ <-. auto.
  - intros Hs. rewrite Hrun, Hs. cbn [fst snd]. split; [reflexivity|].
    quiet_prefix Hq. reflexivity.
Qed.

Lemma timeout_notice_without_cleanup_witness :
  say_calls (snd (run (calm (inl read_timeout)) greeting)) =
    [(PStr "⏰ Request timed out - Gumloop took too long. Try again?", None)]
  /\ reaction_attempts (snd (run (calm (inl read_timeout)) greeting)) =
     [(Add, PStr "C09NEFLB30C", PStr "1730000000.000100", "hourglass_flowing_sand")]
  /\ posted (snd (run (calm (inl read_timeout)) greeting)) =
     [PStr "⏰ Request timed out - Gumloop took too long. Try again?"].
Proof.
  destruct (timeout_notice_without_cleanup (calm (inl read_timeout)) greeting
              "C09NEFLB30C" "Read timed out. (read timeout=60)"
              passes_filter_greeting eq_refl eq_refl)
    as (Hs & _ & _ & Hr & _ & Hp).
  split; [exact Hs|]. split; [exact Hr|]. exact (proj2 (Hp eq_refl)).
Defined.



(** C8. Two runs of the handler on the same event, in two worlds that give
    the same answers to the webhook request and to [say] and any answers at
    all to the reaction calls, end the same way, with the same webhook
    requests and the same calls of [say], answers included. *)
Theorem reaction_failures_do_not_change_the_reply w1 w2 event :
  same_reply_answers w1 w2 ->
  reply_outcome (run w1 event) = reply_outcome (run w2 event).
Proof.
  intros Hw. unfold reply_outcome, run.
  destruct (agree_handle_message w1 w2 Hw event [] []) as (Hr & Hp & Hs).
  { split; reflexivity. }
  rewrite Hr, Hp, Hs. reflexivity.
Qed.

Lemma reaction_failures_do_not_change_the_reply_witness :
  reply_outcome (run (calm (inr hello_response)) greeting) =
  reply_outcome (run (world (Some missing_scope) (Some no_reaction)
                        (inr hello_response) (fun _ => None)) greeting)
  /\ reaction_attempts (snd (run (calm (inr hello_response)) greeting)) <>
     reaction_attempts (snd (run (world (Some missing_scope) (Some no_reaction)
                                   (inr hello_response) (fun _ => None)) greeting)).
Proof.
  split.
  - apply reaction_failures_do_not_change_the_reply.
    repeat split; reflexivity.
  - vm_compute. discriminate.
Defined.

(** C9. An event that passes the filter and has no [text] is forwarded all
    the same: its one webhook request carries [message_text] equal to the
    empty string. *)
Theorem missing_text_is_forwarded_as_empty w event c :
  passes_filter event c -> event !! "text" = None ->
  webhook_requests (snd (run w event)) =
    [requests_post (GUMLOOP_WEBHOOK w)
       (PDict {[ "channel_id" := PStr c; "message_text" := PStr "" ]})
       {[ "Content-Type" := "application/json" ]} 60 (webhook_answer w event)].
Proof.
  intros Hf Ht.
  assert (Hm : message_text_of event = PStr "")
    by (unfold message_text_of, dict_get_default; rewrite Ht; reflexivity).
  assert (Htxt : text_ok event) by (unfold text_ok; rewrite Hm; reflexivity).
  destruct (run_settles w event c Hf Htxt) as (r & t0 & t2 & -> & Hq & Hw & _).
  cbn [snd]. rewrite webhook_requests_app, (quiet_webhook_requests _ Hq).
  cbn [webhook_requests app]. rewrite Hw, Hm. reflexivity.
Qed.

Lemma missing_text_is_forwarded_as_empty_witness :
  webhook_requests (snd (run (calm (inr hello_response)) deleted)) =
    [requests_post (Some "https://api.gumloop.com/api/v1/start_pipeline")
       (PDict {[ "channel_id" := PStr "C09NEFLB30C"; "message_text" := PStr "" ]})
       {[ "Content-Type" := "application/json" ]} 60 (inr hello_response)].
Proof.
  exact (missing_text_is_forwarded_as_empty (calm (inr hello_response)) deleted
           "C09NEFLB30C" passes_filter_deleted eq_refl).
Defined.

(** C10. For an event that passes the filter, if the webhook answers 200
    with a body the success branch cannot use ([response.json()] raises, or
    the decoded value is no [dict]), the handler makes one call of [say],
    with the connection-error notice that carries the text of the exception,
    which is not the fallback reply; when that call returns, the notice is
    the one message posted. *)
Theorem unusable_body_gets_error_notice w event c resp detail :
  passes_filter event c -> text_ok event ->
  webhook_answer w event = inr resp -> status_code resp = 200 ->
  unusable_body resp = Some detail ->
  let txt := "❌ Error connecting to AI: " +:+ detail in
  say_calls (snd (run w event)) = [(PStr txt, slack_say w 0 (PStr txt))]
  /\ txt <> "Sorry, no response from AI."
  /\ (slack_say w 0 (PStr txt) = None ->
      fst (run w event) = Returned tt /\ posted (snd (run w event)) = [PStr txt]).
Proof.
  intros Hf Htxt Ha Hs Hu txt.
  destruct (run_forwards w event c Hf Htxt) as (label & t0 & Hq & Hr & Hth & Hans & Hrun).
  rewrite Hans in Ha.
  assert (He : exists cls,
             call_gumloop_webhook w event (PStr c) label (message_text_of event) t0 =
             on_exception w (OtherException cls detail)
               (t0 ++ [requests_post (GUMLOOP_WEBHOOK w)
                         (webhook_payload (PStr c) (message_text_of event))
                         webhook_headers 60 (inr resp)])).
  { unfold unusable_body in Hu. destruct (json resp) as [m|v] eqn:Hj.
    - injection Hu as <-. eexists. eapply reply_json_raised; eassumption.
    - assert (Hv : forall d, v <> PDict d) by (intros d ->; discriminate).
      assert (Hd : detail = "'" +:+ type_name v +:+ "' object has no attribute 'get'")
        by (destruct v; try discriminate; injection Hu as <-; reflexivity).
      rewrite Hd. eexists.
      exact (reply_not_a_dict w event (PStr c) label (message_text_of event) t0 Hq
               resp v Ha Hs Hj Hv). }
  destruct He as (cls & He). rewrite Hrun, He, on_exception_run.
  rewrite count_say_after_post by exact Hq.
  change (notice (OtherException cls detail)) with (PStr txt).
  split; [|split].
  - destruct (slack_say w 0 (PStr txt)); cbn [snd]; quiet_prefix Hq; reflexivity.
  - discriminate.
  - intros Hsay. rewrite Hsay. cbn [fst snd]. split; [reflexivity|].
    quiet_prefix Hq. reflexivity.
Qed.

Lemma unusable_body_gets_error_notice_witness :
  posted (snd (run (calm (inr array_response)) greeting)) =
    [PStr "❌ Error connecting to AI: 'list' object has no attribute 'get'"].
Proof.
  exact (proj2 (proj2 (proj2
    (unusable_body_gets_error_notice (calm (inr array_response)) greeting
       "C09NEFLB30C" array_response "'list' object has no attribute 'get'"
       passes_filter_greeting eq_refl eq_refl eq_refl eq_refl)) eq_refl)).
Defined.

(* ------------------------------------------------------------------ *)
(** ** More about the handler: slicing, the start of a run, its paths *)

Import MoreSamples.



Lemma str_take_prefix n s : exists rest, s = str_take n s +:+ rest.
Proof.
  revert n. induction s as [|a s IH]; intros n; [exists ""; reflexivity|].
  cbn [str_take]. destruct (utf8_continuation a).
  - destruct (IH n) as [rest Hr]. exists rest.
    change (String a s = String a (str_take n s +:+ rest)). rewrite <- Hr. reflexivity.
  - destruct n as [|n]; [exists (String a s); reflexivity|].
    destruct (IH n) as [rest Hr]. exists rest.
    change (String a s = String a (str_take n s +:+ rest)). rewrite <- Hr. reflexivity.
Qed.

Lemma str_take_length n s : (str_len (str_take n s) <= n)%nat.
Proof.
  revert n. induction s as [|a s IH]; intros n; cbn [str_take]; [cbn; lia|].
  destruct (utf8_continuation a) eqn:Ha.
  - cbn [str_len]. rewrite Ha. apply IH.
  - destruct n as [|n]; [cbn; lia|]. cbn [str_len]. rewrite Ha.
    specialize (IH n). lia.
Qed.

Lemma str_take_short n s : (str_len s <= n)%nat -> str_take n s = s.
Proof.
  revert n. induction s as [|a s IH]; intros n H; [reflexivity|].
  cbn [str_take str_len] in *. destruct (utf8_continuation a).
  - rewrite IH by exact H. reflexivity.
  - destruct n as [|n]; [lia|]. rewrite IH by lia. reflexivity.
Qed.

Section Thinking.
Variable w : World.
Variable event : gmap string pyval.
Variable ch : pyval.

Lemma add_thinking_reaction_first t :
  count is_reactions_add t = O ->
  exists t', add_thinking_reaction w event ch t = (Returned tt, t ++ t')
    /\ quiet t' = true
    /\ count is_reactions_remove t' = O
    /\ reaction_attempts t' = thinking_attempt event ch
    /\ logged t' = thinking_log w event ch.
Proof.
  intros Hc.
  unfold add_thinking_reaction, thinking_attempt, thinking_log. unfold_calls.
  destruct (event !! "ts") as [ts|]; cbn.
  - rewrite Hc. destruct (slack_reactions_add w 0 ch ts _) as [e|]; cbn;
      rewrite <- ?app_assoc; eexists; repeat split; reflexivity.
  - eexists. repeat split; reflexivity.
Qed.
End Thinking.

Lemma handle_message_prefix w event c label :
  passes_filter event c -> CHANNELS !! c = Some label -> text_ok event ->
  exists preview t',
    run w event =
      call_gumloop_webhook w event (PStr c) label (message_text_of event)
        (logger INFO (message_in_line label preview) :: t')
    /\ quiet t' = true /\ count is_reactions_remove t' = O
    /\ reaction_attempts t' = thinking_attempt event (PStr c)
    /\ logged t' = thinking_log w event (PStr c)
    /\ slice_to 50 (message_text_of event) [] = (Returned preview, []).
Proof.
  intros (Hbot & Hch & _) Hl Htxt.
  assert (Hc : dict_get event "channel" = PStr c)
    by (unfold dict_get; rewrite Hch; reflexivity).
  unfold run, handle_message. unfold origin_is_bot in Hbot. rewrite Hbot.
  unfold text_ok in Htxt. fold (message_text_of event).
  cbv zeta. rewrite Hc. unfold in_CHANNELS, CHANNELS_getitem. rewrite Hl.
  rewrite bool_decide_eq_true_2 by eauto.
  unfold bind at 1. unfold ret at 1. cbn [negb].
  unfold bind at 1. unfold ret at 1.
  destruct (message_text_of event) as [| | |s|l|]; try discriminate; cbn [slice_to].
  all: unfold bind at 1; unfold ret at 1.
  all: unfold bind at 1; unfold logger_info at 1.
  all: unfold bind at 1.
  all: match goal with |- context [add_thinking_reaction ?w ?ev ?ch ?t] =>
         let Hcnt := fresh in
         assert (Hcnt : count is_reactions_add t = O) by reflexivity;
         destruct (add_thinking_reaction_first w ev ch t Hcnt)
           as (t' & -> & Hq & Hr & Ha & Hlg) end.
  all: eexists _, t'; repeat split; try assumption; reflexivity.
Qed.



Lemma run_reaction_attempts w event c :
  passes_filter event c -> text_ok event ->
  reaction_attempts (snd (run w event)) =
    thinking_attempt event (PStr c) ++
    match delivered w event with
    | Some _ => cleanup_attempts w event (PStr c) 0
    | None => []
    end.
Proof.
  intros Hf Htxt.
  destruct (run_forwards w event c Hf Htxt) as (label & t0 & Hq & Hr & Hth & Hans & Hrun).
  unfold delivered. rewrite Hrun, Hans. clear Hans.
  destruct (http_post w 0 _ _ _ _) as [e|resp] eqn:Ha.
  { rewrite (reply_post_raised w event (PStr c) label _ t0 Hq e Ha), on_exception_run.
    destruct (slack_say w _ (notice e)); cbn [snd]; quiet_prefix Hq; cbn;
      rewrite Hth, ?app_nil_r; reflexivity. }
  destruct (decide (status_code resp = 200)) as [Hs|Hs].
  2: { rewrite (reply_status_not_200 w event (PStr c) label _ t0 Hq resp Ha Hs).
       apply Z.eqb_neq in Hs. rewrite Hs.
       destruct (slack_say w 0 _) as [e|]; [rewrite on_exception_run|];
         repeat match goal with |- context [slack_say ?w ?n ?m] =>
           destruct (slack_say w n m) end;
         cbn [snd]; quiet_prefix Hq; cbn; rewrite Hth, ?app_nil_r; reflexivity. }
  pose proof Hs as Hs'. apply Z.eqb_eq in Hs'. rewrite Hs'.
  destruct (json resp) as [m|v] eqn:Hj.
  { rewrite (reply_json_raised w event (PStr c) label _ t0 Hq resp m Ha Hs Hj),
      on_exception_run.
    destruct (slack_say w _ _); cbn [snd]; quiet_prefix Hq; cbn;
      rewrite Hth, ?app_nil_r; reflexivity. }
  destruct (match v with PDict d => Some d | _ => None end) as [d|] eqn:Hv.
  2: { rewrite (reply_not_a_dict w event (PStr c) label _ t0 Hq resp v Ha Hs Hj)
         by (intros d ->; discriminate).
       rewrite on_exception_run.
       destruct v; try discriminate;
         destruct (slack_say w _ _); cbn [snd]; quiet_prefix Hq; cbn;
         rewrite Hth, ?app_nil_r; reflexivity. }
  destruct v; try discriminate. injection Hv as ->.
  pose proof (reply_dict w event (PStr c) label _ t0 Hq Hr resp d Ha Hs Hj) as Hd.
  cbv zeta in Hd.
  destruct (slack_say w 0 _) as [e|] eqn:Hsay.
  - rewrite Hd, on_exception_run.
    destruct (slack_say w _ (notice e)); cbn [snd]; quiet_prefix Hq; cbn;
      rewrite Hth, ?app_nil_r; reflexivity.
  - destruct Hd as (t' & Hq' & _ & Hre & ->). cbn [snd].
    quiet_prefix Hq. cbn. rewrite Hth, Hre, ?app_nil_r. reflexivity.
Qed.

Lemma delivered_inv w event ai :
  delivered w event = Some ai ->
  exists resp d,
    webhook_answer w event = inr resp /\ status_code resp = 200
    /\ json resp = inr (PDict d)
    /\ ai = dict_get_default d "response" (PStr "Sorry, no response from AI.")
    /\ slack_say w 0 ai = None.
Proof.
  unfold delivered. destruct (webhook_answer w event) as [e|resp]; [discriminate|].
  destruct (status_code resp =? 200) eqn:Hs; [|discriminate].
  destruct (json resp) as [m|v] eqn:Hj; [discriminate|].
  destruct v as [| | | | |d]; try discriminate.
  cbv zeta. destruct (slack_say w 0 _) eqn:Hsay; [discriminate|].
  intros [= <-]. apply Z.eqb_eq in Hs. exists resp, d. repeat split; auto.
Qed.

(** Every event is either dropped with an empty trace (filtered, or the
    handler raised before its first call) or passes the filter with a text
    that can be sliced. *)
Lemma run_stops_or_forwards w event :
  snd (run w event) = [] \/ exists c, passes_filter event c /\ text_ok event.
Proof.
  unfold run, handle_message. fold (origin_is_bot event).
  destruct (origin_is_bot event) eqn:Hbot; [left; reflexivity|]. cbv zeta.
  destruct (dict_get event "channel") as [| | |c| |] eqn:Hd;
    unfold in_CHANNELS, bind, ret, raise; cbn [negb fst snd];
    try (left; reflexivity).
  assert (Hch : event !! "channel" = Some (PStr c)).
  { unfold dict_get in Hd. destruct (event !! "channel"); cbn in Hd; congruence. }
  destruct (CHANNELS !! c) as [label|] eqn:Hl.
  2: { rewrite bool_decide_eq_false_2 by (intros [? ?]; discriminate).
       left. reflexivity. }
  rewrite bool_decide_eq_true_2 by eauto. cbn [negb].
  unfold CHANNELS_getitem. rewrite Hl. fold (message_text_of event).
  destruct (sliceable (message_text_of event)) eqn:Hsl.
  - right. exists c. repeat split; eauto.
  - left. destruct (message_text_of event); try discriminate; reflexivity.
Qed.

Lemma thinking_attempt_length event ch : (length (thinking_attempt event ch) <= 1)%nat.
Proof. unfold thinking_attempt. destruct (event !! "ts"); cbn; lia. Qed.

Lemma cleanup_attempts_length w event ch n :
  (length (cleanup_attempts w event ch n) <= 2)%nat.
Proof.
  unfold cleanup_attempts. destruct (event !! "ts"); cbn; [|lia].
  destruct (slack_reactions_remove w n ch _ _); cbn; lia.
Qed.

(** X2. The reaction calls of a run of an event that passes the filter are
    the thinking reaction (when the event has a [ts]) and, only when the
    reply reached the channel, the removal of the hourglass and, if that
    removal returned, the checkmark.  On every other path (time-out,
    transport error, status other than 200, unusable body, failed reply call)
    the hourglass is left in place. *)
Theorem reactions_of_a_run w event c :
  passes_filter event c -> text_ok event ->
  reaction_attempts (snd (run w event)) =
    thinking_attempt event (PStr c) ++
    match delivered w event with
    | Some _ => cleanup_attempts w event (PStr c) 0
    | None => []
    end.
Proof. exact (run_reaction_attempts w event c). Qed.

Lemma reactions_of_a_run_witness :
  reaction_attempts (snd (run (calm (inr error_response)) greeting)) =
    [(Add, PStr "C09NEFLB30C", PStr "1730000000.000100", "hourglass_flowing_sand")].
Proof.
  exact (reactions_of_a_run (calm (inr error_response)) greeting "C09NEFLB30C"
           passes_filter_greeting eq_refl).
Defined.

(** X3. A checkmark is attempted only after the reply of the webhook was
    posted: if a run holds a [reactions_add] of [white_check_mark], the
    handler returned and the one message posted is the reply. *)
Theorem checkmark_only_after_reply w event c ch ts :
  passes_filter event c -> text_ok event ->
  In (Add, ch, ts, "white_check_mark") (reaction_attempts (snd (run w event))) ->
  exists ai, delivered w event = Some ai
    /\ fst (run w event) = Returned tt
    /\ posted (snd (run w event)) = [ai].
Proof.
  intros Hf Htxt Hin. rewrite (run_reaction_attempts w event c Hf Htxt) in Hin.
  apply in_app_or in Hin as [Hin|Hin].
  { unfold thinking_attempt in Hin. destruct (event !! "ts"); cbn in Hin;
      [destruct Hin as [Hin|[]]; discriminate | contradiction]. }
  destruct (delivered w event) as [ai|] eqn:Hd; [|contradiction].
  exists ai. split; [reflexivity|].
  destruct (delivered_inv w event ai Hd) as (resp & d & Ha & Hs & Hj & -> & Hsay).
  destruct (run_reply_dict w event c resp d Hf Htxt Ha Hs Hj) as [_ H].
  destruct (H Hsay) as (? & _ & ? & _). auto.
Qed.

Lemma checkmark_only_after_reply_witness :
  exists ai, delivered (calm (inr hello_response)) greeting = Some ai
    /\ fst (run (calm (inr hello_response)) greeting) = Returned tt
    /\ posted (snd (run (calm (inr hello_response)) greeting)) = [ai].
Proof.
  apply (checkmark_only_after_reply (calm (inr hello_response)) greeting "C09NEFLB30C"
           (PStr "C09NEFLB30C") (PStr "1730000000.000100")
           passes_filter_greeting eq_refl).
  vm_compute. right. right. left. reflexivity.
Defined.

(** X4. For every event whatsoever, a run either leaves an empty trace or
    makes exactly one webhook request, and it never makes more than two
    calls of [say] and three reaction calls. *)
Theorem outbound_calls_are_bounded w event :
  (snd (run w event) = [] \/ length (webhook_requests (snd (run w event))) = 1%nat)
  /\ (length (say_calls (snd (run w event))) <= 2)%nat
  /\ (length (reaction_attempts (snd (run w event))) <= 3)%nat.
Proof.
  destruct (run_stops_or_forwards w event) as [H|(c & Hf & Htxt)].
  { rewrite H. cbn. split; [left; reflexivity | lia]. }
  split; [|split].
  - right. destruct (run_settles w event c Hf Htxt) as (r & t0 & t2 & -> & Hq & Hw & _).
    cbn [snd]. quiet_prefix Hq. cbn. rewrite Hw. reflexivity.
  - destruct (run_settles w event c Hf Htxt)
      as (r & t0 & t2 & -> & Hq & _ & _ & Hl & _).
    cbn [snd]. quiet_prefix Hq. cbn. lia.
  - rewrite (run_reaction_attempts w event c Hf Htxt), length_app.
    pose proof (thinking_attempt_length event (PStr c)).
    pose proof (cleanup_attempts_length w event (PStr c) 0).
    destruct (delivered w event); cbn [length]; lia.
Qed.

(** X5. In the run of an event that passes the filter, the webhook request
    sits between the thinking reaction and everything that answers it:
    before the request there is no call of [say] and no reaction call but
    the thinking reaction; after it there is no second request, and every
    call of [say] and every clean-up call of the run. *)
Theorem request_sits_between w event c :
  passes_filter event c -> text_ok event ->
  exists t0 t2,
    snd (run w event) =
      t0 ++ requests_post (GUMLOOP_WEBHOOK w)
              (webhook_payload (PStr c) (message_text_of event))
              webhook_headers 60 (webhook_answer w event) :: t2
    /\ say_calls t0 = []
    /\ reaction_attempts t0 = thinking_attempt event (PStr c)
    /\ webhook_requests t2 = []
    /\ say_calls t2 = say_calls (snd (run w event))
    /\ reaction_attempts t2 =
       match delivered w event with
       | Some _ => cleanup_attempts w event (PStr c) 0
       | None => []
       end.
Proof.
  intros Hf Htxt.
  pose proof (run_reaction_attempts w event c Hf Htxt) as Hre.
  destruct (run_forwards w event c Hf Htxt) as (label & t0 & Hq & Hr & Hth & Hans & Hrun).
  destruct (reply_stage_settles w event (PStr c) label (message_text_of event) t0 Hq Hr)
    as (r & t2 & Hst & Hw & _).
  rewrite Hrun, Hst in *. rewrite <- Hans in *. cbn [snd] in *.
  exists t0, t2. split; [reflexivity|].
  split; [exact (quiet_say_calls _ Hq)|]. split; [exact Hth|].
  split; [exact Hw|]. split.
  - quiet_prefix Hq. reflexivity.
  - rewrite reaction_attempts_app, Hth in Hre. cbn [reaction_attempts] in Hre.
    exact (app_inv_head _ _ _ Hre).
Qed.

Lemma request_sits_between_witness :
  exists t0 t2,
    snd (run (calm (inr hello_response)) greeting) =
      t0 ++ requests_post (Some "https://api.gumloop.com/api/v1/start_pipeline")
              (webhook_payload (PStr "C09NEFLB30C") (PStr "hi there"))
              webhook_headers 60 (inr hello_response) :: t2
    /\ say_calls t0 = [] /\ webhook_requests t2 = []
    /\ say_calls t2 = [(PStr "hello", None)].
Proof.
  destruct (request_sits_between (calm (inr hello_response)) greeting "C09NEFLB30C"
              passes_filter_greeting eq_refl) as (t0 & t2 & H & Hs & _ & Hw & Hs2 & _).
  exists t0, t2. split; [exact H|]. split; [exact Hs|]. split; [exact Hw|exact Hs2].
Defined.


(** Following one path of the handler by evaluation. *)
Ltac walk :=
  cbn [negb count app is_say is_requests_post is_reactions_add is_reactions_remove
       fst snd Nat.add].

(** X1. When every call succeeds, the run of a text message is exactly: the
    message log line with the first 50 characters of the text, the hourglass
    reaction, the webhook request, the reply, the removal of the hourglass,
    the checkmark, the success log line, in this order. *)
Theorem happy_path_trace w event c label ts s resp d :
  passes_filter event c -> CHANNELS !! c = Some label ->
  event !! "text" = Some (PStr s) -> event !! "ts" = Some ts ->
  webhook_answer w event = inr resp -> status_code resp = 200 ->
  json resp = inr (PDict d) ->
  let ai := dict_get_default d "response" (PStr "Sorry, no response from AI.") in
  slack_reactions_add w 0 (PStr c) ts "hourglass_flowing_sand" = None ->
  slack_say w 0 ai = None ->
  slack_reactions_remove w 0 (PStr c) ts "hourglass_flowing_sand" = None ->
  slack_reactions_add w 1 (PStr c) ts "white_check_mark" = None ->
  run w event =
    (Returned tt,
     [logger INFO (message_in_line label (PStr (str_take 50 s)));
      reactions_add (PStr c) ts "hourglass_flowing_sand" None;
      requests_post (GUMLOOP_WEBHOOK w) (webhook_payload (PStr c) (PStr s))
        webhook_headers 60 (inr resp);
      say ai None;
      reactions_remove (PStr c) ts "hourglass_flowing_sand" None;
      reactions_add (PStr c) ts "white_check_mark" None;
      logger INFO [Lit "✅ Response sent to #"; Val (PStr label)]]).
Proof.
  intros Hf Hl Htx Hts Ha Hs Hj ai Hadd Hsay Hrem Hchk.
  pose proof (passes_filter_channel event c Hf) as Hc.
  assert (Hm : dict_get_default event "text" (PStr "") = PStr s)
    by (unfold dict_get_default; rewrite Htx; reflexivity).
  unfold webhook_answer, message_text_of in Ha. rewrite Hc, Hm in Ha.
  destruct Hf as (Hbot & _ & _). unfold origin_is_bot in Hbot.
  apply Z.eqb_eq in Hs.
  unfold run, handle_message. rewrite Hbot. cbv zeta. rewrite Hc, Hm.
  unfold in_CHANNELS, CHANNELS_getitem, slice_to, add_thinking_reaction,
    call_gumloop_webhook, replace_hourglass_with_checkmark, response_json, data_get.
  rewrite Hl. rewrite bool_decide_eq_true_2 by eauto.
  unfold_calls. rewrite Hts. walk. rewrite Hadd. walk. rewrite Ha. rewrite Hs, Hj.
  fold ai. walk. rewrite Hsay. walk. rewrite Hrem. walk. rewrite Hchk. reflexivity.
Qed.

Lemma happy_path_trace_witness :
  exists t, run (calm (inr hello_response)) greeting = (Returned tt, t)
    /\ length t = 7%nat
    /\ posted t = [PStr "hello"].
Proof.
  eexists. split; [|split].
  - exact (happy_path_trace (calm (inr hello_response)) greeting "C09NEFLB30C"
             "vision-agent" (PStr "1730000000.000100") "hi there" hello_response
             {[ "response" := PStr "hello" ]}
             passes_filter_greeting eq_refl eq_refl eq_refl eq_refl eq_refl eq_refl
             eq_refl eq_refl eq_refl eq_refl).
  - reflexivity.
  - reflexivity.
Defined.

Lemma quiet_logger_cons lvl msg t : quiet (logger lvl msg :: t) = quiet t.
Proof. reflexivity. Qed.

(** The log of a forwarded event starts with the message line and the log
    lines of the thinking reaction. *)
Lemma run_log_starts w event c label :
  passes_filter event c -> CHANNELS !! c = Some label -> text_ok event ->
  exists preview rest,
    logged (snd (run w event)) =
      (INFO, message_in_line label preview) :: thinking_log w event (PStr c) ++ rest
    /\ slice_to 50 (message_text_of event) [] = (Returned preview, []).
Proof.
  intros Hf Hl Htxt.
  destruct (handle_message_prefix w event c label Hf Hl Htxt)
    as (preview & t' & -> & Hq & Hr & _ & Hlg & Hsl).
  destruct (reply_stage_settles w event (PStr c) label (message_text_of event)
              (logger INFO (message_in_line label preview) :: t'))
    as (r & t2 & -> & _); [exact Hq | exact Hr |].
  exists preview. eexists. split; [|exact Hsl].
  cbn [snd]. rewrite <- app_comm_cons. cbn [logged]. rewrite logged_app, Hlg.
  reflexivity.
Qed.

(** X6. An event without [ts] that passes the filter is forwarded all the
    same, with no reaction call at all: [event["ts"]] raises inside both
    [try] blocks, the first logs the [KeyError], the second stays silent. *)
Theorem event_without_ts_gets_no_reaction w event c label :
  passes_filter event c -> CHANNELS !! c = Some label -> text_ok event ->
  event !! "ts" = None ->
  reaction_attempts (snd (run w event)) = []
  /\ length (webhook_requests (snd (run w event))) = 1%nat
  /\ exists preview rest,
       logged (snd (run w event)) =
         (INFO, message_in_line label preview)
         :: (ERROR, [Lit "Could not add reaction: "; Val (PStr "'ts'")]) :: rest.
Proof.
  intros Hf Hl Htxt Hts. split; [|split].
  - rewrite (run_reaction_attempts w event c Hf Htxt).
    unfold thinking_attempt, cleanup_attempts. rewrite Hts.
    destruct (delivered w event); reflexivity.
  - destruct (run_settles w event c Hf Htxt) as (r & t0 & t2 & -> & Hq & Hw & _).
    cbn [snd]. rewrite webhook_requests_app, (quiet_webhook_requests _ Hq).
    cbn. rewrite Hw. reflexivity.
  - destruct (run_log_starts w event c label Hf Hl Htxt) as (preview & rest & H & _).
    unfold thinking_log in H. rewrite Hts in H. eauto.
Qed.

Lemma passes_filter_unstamped : passes_filter unstamped "C09NEFLB30C".
Proof. repeat split. eexists. reflexivity. Qed.

Lemma event_without_ts_gets_no_reaction_witness :
  reaction_attempts (snd (run (calm (inr hello_response)) unstamped)) = []
  /\ length (webhook_requests (snd (run (calm (inr hello_response)) unstamped))) = 1%nat.
Proof.
  destruct (event_without_ts_gets_no_reaction (calm (inr hello_response)) unstamped
              "C09NEFLB30C" "vision-agent" passes_filter_unstamped eq_refl eq_refl eq_refl)
    as (Hr & Hw & _).
  split; [exact Hr | exact Hw].
Defined.

(** X7. When the thinking reaction raises, the handler logs
    [Could not add reaction:] with the text of the exception as its second
    log line and goes on to the webhook request. *)
Theorem failed_thinking_reaction_is_logged w event c label ts e :
  passes_filter event c -> CHANNELS !! c = Some label -> text_ok event ->
  event !! "ts" = Some ts ->
  slack_reactions_add w 0 (PStr c) ts "hourglass_flowing_sand" = Some e ->
  length (webhook_requests (snd (run w event))) = 1%nat
  /\ exists preview rest,
       logged (snd (run w event)) =
         (INFO, message_in_line label preview)
         :: (ERROR, [Lit "Could not add reaction: "; Val (PStr (str_exc e))]) :: rest.
Proof.
  intros Hf Hl Htxt Hts Hadd. split.
  - destruct (run_settles w event c Hf Htxt) as (r & t0 & t2 & -> & Hq & Hw & _).
    cbn [snd]. rewrite webhook_requests_app, (quiet_webhook_requests _ Hq).
    cbn. rewrite Hw. reflexivity.
  - destruct (run_log_starts w event c label Hf Hl Htxt) as (preview & rest & H & _).
    unfold thinking_log in H. rewrite Hts, Hadd in H. eauto.
Qed.

Lemma failed_thinking_reaction_is_logged_witness :
  exists preview rest,
    logged (snd (run (world (Some missing_scope) None (inr hello_response)
                        (fun _ => None)) greeting)) =
      (INFO, message_in_line "vision-agent" preview)
      :: (ERROR, [Lit "Could not add reaction: "; Val (PStr "missing_scope")]) :: rest.
Proof.
  exact (proj2 (failed_thinking_reaction_is_logged
                  (world (Some missing_scope) None (inr hello_response) (fun _ => None))
                  greeting "C09NEFLB30C" "vision-agent" (PStr "1730000000.000100")
                  missing_scope passes_filter_greeting eq_refl eq_refl eq_refl eq_refl)).
Defined.

(** X8. The first log line of a forwarded text message names the label of
    the channel in [CHANNELS] and shows [text[:50]]: a prefix of the text of
    at most 50 characters, the whole text when it has no more than 50. *)
Theorem log_preview_is_a_prefix w event c label s :
  passes_filter event c -> CHANNELS !! c = Some label ->
  event !! "text" = Some (PStr s) ->
  head (logged (snd (run w event))) =
    Some (INFO, message_in_line label (PStr (str_take 50 s)))
  /\ (str_len (str_take 50 s) <= 50)%nat
  /\ (exists rest, s = str_take 50 s +:+ rest)
  /\ ((str_len s <= 50)%nat -> str_take 50 s = s).
Proof.
  intros Hf Hl Hs.
  assert (Hm : message_text_of event = PStr s)
    by (unfold message_text_of, dict_get_default; rewrite Hs; reflexivity).
  assert (Htxt : text_ok event) by (unfold text_ok; rewrite Hm; reflexivity).
  split; [|split; [apply str_take_length | split;
           [apply str_take_prefix | apply str_take_short]]].
  destruct (run_log_starts w event c label Hf Hl Htxt) as (preview & rest & -> & Hsl).
  rewrite Hm in Hsl. cbn in Hsl. injection Hsl as <-. reflexivity.
Qed.

Lemma log_preview_is_a_prefix_witness :
  head (logged (snd (run (calm (inr hello_response)) greeting))) =
    Some (INFO, message_in_line "vision-agent" (PStr "hi there")).
Proof.
  exact (proj1 (log_preview_is_a_prefix (calm (inr hello_response)) greeting
                  "C09NEFLB30C" "vision-agent" "hi there"
                  passes_filter_greeting eq_refl eq_refl)).
Defined.




(** X10. An event without truthy [bot_id] whose [channel] is a JSON array
    or object makes the membership test raise [TypeError: unhashable type],
    before any outbound call. *)
Theorem unhashable_channel_raises w event :
  origin_is_bot event = false -> hashable (dict_get event "channel") = false ->
  run w event =
    (Raised (OtherException "TypeError"
               ("unhashable type: '" +:+ type_name (dict_get event "channel") +:+ "'")),
     []).
Proof.
  intros Hbot Hh. unfold run, handle_message. unfold origin_is_bot in Hbot.
  rewrite Hbot. cbv zeta.
  destruct (dict_get event "channel"); try discriminate; reflexivity.
Qed.

Lemma unhashable_channel_raises_witness :
  run (calm (inr hello_response)) array_channel =
    (Raised (OtherException "TypeError" "unhashable type: 'list'"), []).
Proof.
  exact (unhashable_channel_raises (calm (inr hello_response)) array_channel
           eq_refl eq_refl).
Defined.

(** X15. The start-up line about the webhook shows at most 50 characters,
    a prefix of the URL, and never the rest of it; an unset or empty URL is
    shown as [NOT SET]. *)
Theorem forwarding_line_shows_a_prefix webhook :
  exists shown, forwarding_line webhook = "🔗 Forwarding to: " +:+ shown +:+ "..."
    /\ (str_len shown <= 50)%nat
    /\ match webhook with
       | Some url => if String.eqb url "" then shown = "NOT SET"
                     else exists rest, url = shown +:+ rest
       | None => shown = "NOT SET"
       end.
Proof.
  unfold forwarding_line. destruct webhook as [url|].
  - destruct (String.eqb url "") eqn:He; cbn [negb].
    + exists "NOT SET". repeat split. vm_compute. lia.
    + exists (str_take 50 url). split; [reflexivity|].
      split; [apply str_take_length | apply str_take_prefix].
  - exists "NOT SET". repeat split. vm_compute. lia.
Qed.


(** X11. A [response] key that is present is used as it is, whatever its
    value (JSON [null] and the empty string included): the fallback text
    replaces a missing key only. *)
Theorem reply_is_forwarded_verbatim w event c resp d v :
  passes_filter event c -> text_ok event ->
  webhook_answer w event = inr resp -> status_code resp = 200 ->
  json resp = inr (PDict d) -> d !! "response" = Some v ->
  head (say_calls (snd (run w event))) = Some (v, slack_say w 0 v)
  /\ (slack_say w 0 v = None ->
      fst (run w event) = Returned tt /\ posted (snd (run w event)) = [v]).
Proof.
  intros Hf Htxt Ha Hs Hj Hd.
  destruct (run_reply_dict w event c resp d Hf Htxt Ha Hs Hj) as [H1 H2].
  unfold dict_get_default in H1, H2. rewrite Hd in H1, H2. cbn [default] in H1, H2.
  split; [exact H1|]. intros Hsay. destruct (H2 Hsay) as (? & _ & ? & _). auto.
Qed.

Lemma reply_is_forwarded_verbatim_witness :
  head (say_calls (snd (run (calm (inr null_response)) greeting))) = Some (PNone, None).
Proof.
  exact (proj1 (reply_is_forwarded_verbatim (calm (inr null_response)) greeting
                  "C09NEFLB30C" null_response {[ "response" := PNone ]} PNone
                  passes_filter_greeting eq_refl eq_refl eq_refl eq_refl eq_refl)).
Defined.

(** X12. When the webhook request raises an exception that is no
    [Timeout], the handler makes one call of [say], with
    [Error connecting to AI:] and the text of the exception, and no reaction
    call beyond the thinking reaction; if that call returns, the handler
    returns and logs [Exception:] with the same text; if it raises, the
    exception leaves the handler and nothing is posted. *)
Theorem transport_error_notice w event c cls msg :
  passes_filter event c -> text_ok event ->
  webhook_answer w event = inl (OtherException cls msg) ->
  let txt := "❌ Error connecting to AI: " +:+ msg in
  say_calls (snd (run w event)) = [(PStr txt, slack_say w 0 (PStr txt))]
  /\ reaction_attempts (snd (run w event)) = thinking_attempt event (PStr c)
  /\ (slack_say w 0 (PStr txt) = None ->
      fst (run w event) = Returned tt
      /\ posted (snd (run w event)) = [PStr txt]
      /\ last (logged (snd (run w event))) =
         Some (ERROR, [Lit "Exception: "; Val (PStr msg)]))
  /\ (forall e, slack_say w 0 (PStr txt) = Some e ->
      fst (run w event) = Raised e /\ posted (snd (run w event)) = []).
Proof.
  intros Hf Htxt Ha txt.
  destruct (run_post_raised w event c _ Hf Htxt Ha) as (t0 & Hq & Hth & Hrun).
  change (notice (OtherException cls msg)) with (PStr txt) in Hrun.
  change (notice_log (OtherException cls msg))
    with [Lit "Exception: "; Val (PStr msg)] in Hrun.
  rewrite Hrun. split; [|split; [|split]].
  - destruct (slack_say w 0 (PStr txt)); cbn [snd]; quiet_prefix Hq; reflexivity.
  - destruct (slack_say w 0 (PStr txt)); cbn [snd]; quiet_prefix Hq; cbn;
      rewrite Hth, !app_nil_r; reflexivity.
  - intros Hsay. rewrite Hsay. cbn [fst snd]. split; [reflexivity|].
    split; [quiet_prefix Hq; reflexivity|].
    rewrite logged_app.
    change (logged [?a; logger ERROR ?m]) with ([] ++ [(ERROR, m)]).
    rewrite app_assoc, last_snoc. reflexivity.
  - intros e Hsay. rewrite Hsay. cbn [fst snd]. split; [reflexivity|].
    quiet_prefix Hq. reflexivity.
Qed.

Lemma transport_error_notice_witness :
  say_calls (snd (run (calm (inl connection_refused)) greeting)) =
    [(PStr "❌ Error connecting to AI: Connection refused", None)]
  /\ last (logged (snd (run (calm (inl connection_refused)) greeting))) =
     Some (ERROR, [Lit "Exception: "; Val (PStr "Connection refused")]).
Proof.
  destruct (transport_error_notice (calm (inl connection_refused)) greeting
              "C09NEFLB30C" "ConnectionError" "Connection refused"
              passes_filter_greeting eq_refl eq_refl) as (Hs & _ & H & _).
  split; [exact Hs | exact (proj2 (proj2 (H eq_refl)))].
Defined.

(** X13. When the call of [say] made by the [try] body (the reply, the
    fallback or the status notice) raises [e], the handler makes exactly one
    more call of [say], with the notice for [e], and no clean-up of the
    reactions; the run ends as that second call ends. *)
Theorem failed_reply_gets_notice w event c resp m e :
  passes_filter event c -> text_ok event ->
  webhook_answer w event = inr resp -> reply_text resp = Some m ->
  slack_say w 0 m = Some e ->
  say_calls (snd (run w event)) = [(m, Some e); (notice e, slack_say w 1 (notice e))]
  /\ reaction_attempts (snd (run w event)) = thinking_attempt event (PStr c)
  /\ fst (run w event) = answer (slack_say w 1 (notice e))
  /\ posted (snd (run w event)) =
     match slack_say w 1 (notice e) with None => [notice e] | Some _ => [] end.
Proof.
  intros Hf Htxt Ha Hm Hsay.
  destruct (run_forwards w event c Hf Htxt) as (label & t0 & Hq & Hr & Hth & Hans & Hrun).
  rewrite Hans in Ha.
  assert (He : call_gumloop_webhook w event (PStr c) label (message_text_of event) t0 =
               on_exception w e
                 (t0 ++ [requests_post (GUMLOOP_WEBHOOK w)
                           (webhook_payload (PStr c) (message_text_of event))
                           webhook_headers 60 (inr resp); say m (Some e)])).
  { unfold reply_text in Hm. destruct (status_code resp =? 200) eqn:Hs.
    - apply Z.eqb_eq in Hs. destruct (json resp) as [?|v] eqn:Hj; [discriminate|].
      destruct v as [| | | | |d]; try discriminate. injection Hm as <-.
      pose proof (reply_dict w event (PStr c) label _ t0 Hq Hr resp d Ha Hs Hj) as Hd.
      cbv zeta in Hd. rewrite Hsay in Hd. exact Hd.
    - apply Z.eqb_neq in Hs. injection Hm as <-.
      pose proof (reply_status_not_200 w event (PStr c) label _ t0 Hq resp Ha Hs) as Hd.
      cbv zeta in Hd. rewrite Hsay in Hd. exact Hd. }
  rewrite Hrun, He, on_exception_run.
  replace (count is_say _) with 1%nat
    by (rewrite count_app, (quiet_count_say _ Hq); reflexivity).
  destruct (slack_say w 1 (notice e)); cbn [fst snd answer];
    quiet_prefix Hq; cbn; rewrite Hth, !app_nil_r; repeat split; reflexivity.
Qed.

Lemma failed_reply_gets_notice_witness :
  say_calls (snd (run (hiccup (inr hello_response)) greeting)) =
    [(PStr "hello", Some ratelimited);
     (PStr "❌ Error connecting to AI: ratelimited", None)]
  /\ posted (snd (run (hiccup (inr hello_response)) greeting)) =
     [PStr "❌ Error connecting to AI: ratelimited"].
Proof.
  destruct (failed_reply_gets_notice (hiccup (inr hello_response)) greeting
              "C09NEFLB30C" hello_response (PStr "hello") ratelimited
              passes_filter_greeting eq_refl eq_refl eq_refl eq_refl)
    as (Hs & _ & _ & Hp).
  split; [exact Hs | exact Hp].
Defined.

(** X14. Whenever the reply reached the channel, the handler returns and
    its last log line is [Response sent to #] with the label of the channel,
    whatever the reaction calls answered. *)
Theorem delivered_reply_is_logged w event c label ai :
  passes_filter event c -> CHANNELS !! c = Some label -> text_ok event ->
  delivered w event = Some ai ->
  fst (run w event) = Returned tt
  /\ posted (snd (run w event)) = [ai]
  /\ last (logged (snd (run w event))) =
     Some (INFO, [Lit "✅ Response sent to #"; Val (PStr label)]).
Proof.
  intros Hf Hl Htxt Hd.
  destruct (delivered_inv w event ai Hd) as (resp & d & Ha & Hs & Hj & -> & Hsay).
  destruct (handle_message_prefix w event c label Hf Hl Htxt)
    as (preview & t1 & Hrun & Hq & Hr & _ & _ & _).
  unfold webhook_answer in Ha. rewrite (passes_filter_channel _ _ Hf) in Ha.
  pose proof (reply_dict w event (PStr c) label _
                (logger INFO (message_in_line label preview) :: t1) Hq Hr
                resp d Ha Hs Hj) as H.
  cbv zeta in H. rewrite Hsay in H. destruct H as (t' & Hq' & Hl' & _ & H).
  rewrite Hrun, H. cbn [fst snd]. split; [reflexivity|]. split.
  - rewrite posted_app. change (posted (logger ?l ?m :: ?t)) with (posted t).
    rewrite (quiet_posted _ Hq). cbn [app posted]. rewrite posted_app,
      (quiet_posted _ Hq'). reflexivity.
  - rewrite !app_assoc, logged_app. cbn [logged]. rewrite last_snoc. reflexivity.
Qed.

Lemma delivered_reply_is_logged_witness :
  last (logged (snd (run (world None (Some no_reaction) (inr hello_response)
                            (fun _ => None)) greeting))) =
    Some (INFO, [Lit "✅ Response sent to #"; Val (PStr "vision-agent")]).
Proof.
  exact (proj2 (proj2 (delivered_reply_is_logged
                  (world None (Some no_reaction) (inr hello_response) (fun _ => None))
                  greeting "C09NEFLB30C" "vision-agent" (PStr "hello")
                  passes_filter_greeting eq_refl eq_refl eq_refl))).
Defined.
